(** * Request history service (src/services/requestHistoryService.js)

    A shallow embedding of the [RequestHistoryService] class: its runtime
    configuration, the three lifecycle operations on history records, the
    retention enforcer and the header redaction, over a model of the Redis
    client the class talks to.

    Conventions of the embedding.
    - JavaScript numbers are integers ([Z]): the service only handles
      counts, sizes, status codes and millisecond timestamps.
    - JavaScript strings are [string]; [String.length] is the JS [.length]
      for ASCII text, which is what header names and JSON punctuation are.
    - Payloads (request and response bodies, header values) are values of
      [JsVal]; an object keeps its properties in insertion order, as
      [JSON.stringify] observes them.
    - Fields that the code reads as a number, a string or a boolean have
      that type, wrapped in [option] where the caller may leave them out
      ([None] is [undefined]).
    - [async] methods run to completion one after the other; an [await]ed
      call that rejects is a [Thrown] outcome.  [uuidv4()], [Date.now()]
      and [new Date().toISOString()] are arguments of the method that
      calls them.  Calls to the logger have no effect on the state and
      are left out. *)

From Stdlib Require Import ZArith String Ascii List DecimalString DecimalZ DecimalPos Lia.
From stdpp Require Import base option gmap strings list.

#[local] Set Warnings "-register-all".
Local Open Scope string_scope.
Local Open Scope Z_scope.

(** ** JavaScript values *)

Module Js.

Inductive JsVal : Type :=
| JUndefined
| JNull
| JBool (b : bool)
| JNum (n : Z)
| JStr (s : string)
| JArr (items : list JsVal)
| JObj (props : list (string * JsVal)).

(** [ToBoolean]: what [if (v)], [!v], [v && _] and [v || _] test. *)
Definition truthy (v : JsVal) : bool :=
  match v with
  | JUndefined | JNull => false
  | JBool b => b
  | JNum n => negb (n =? 0)
  | JStr s => negb (String.eqb s "")
  | JArr _ | JObj _ => true
  end.

(** [a || b] *)
Definition or_else (a b : JsVal) : JsVal := if truthy a then a else b.

(** [o || d] for a field that is a number when supplied. *)
Definition num_or (o : option Z) (d : Z) : Z :=
  match o with
  | Some n => if n =? 0 then d else n
  | None => d
  end.

(** [o || d] for a field that is a string when supplied. *)
Definition str_or (o : option string) (d : string) : string :=
  match o with
  | Some s => if String.eqb s "" then d else s
  | None => d
  end.

(** [!o] for a field that is a string when supplied. *)
Definition str_falsy (o : option string) : bool :=
  match o with
  | Some s => String.eqb s ""
  | None => true
  end.

(** [o ?? d] *)
Definition nullish {A} (o : option A) (d : A) : A :=
  match o with Some a => a | None => d end.

(** Own properties of an object. *)
Fixpoint lookup_prop (k : string) (ps : list (string * JsVal)) : option JsVal :=
  match ps with
  | [] => None
  | (k', v) :: ps' => if String.eqb k' k then Some v else lookup_prop k ps'
  end.

(** [ps[k] = v]: overwrite in place, or append a new property. *)
Fixpoint assign_prop (k : string) (v : JsVal) (ps : list (string * JsVal))
  : list (string * JsVal) :=
  match ps with
  | [] => [(k, v)]
  | (k', v') :: ps' =>
      if String.eqb k' k then (k, v) :: ps' else (k', v') :: assign_prop k v ps'
  end.

(** The decimal text of an integer, which is what [String(n)] and
    [JSON.stringify(n)] give for an integer below [1e21] in absolute
    value; the counts, sizes, status codes and timestamps of the service
    are far below. *)
Definition number_to_string (n : Z) : string :=
  NilZero.string_of_int (Z.to_int n).

(** Index keys ["0"], ["1"], ... of an array or a string. *)
Fixpoint indexed {A} (i : nat) (l : list A) : list (string * A) :=
  match l with
  | [] => []
  | x :: l' => (number_to_string (Z.of_nat i), x) :: indexed (S i) l'
  end.

Fixpoint chars (s : string) : list JsVal :=
  match s with
  | EmptyString => []
  | String c s' => JStr (String c EmptyString) :: chars s'
  end.

(** [{...v}]: the own enumerable properties that object spread copies. *)
Definition spread (v : JsVal) : list (string * JsVal) :=
  match v with
  | JObj ps => ps
  | JArr items => indexed 0 items
  | JStr s => indexed 0 (chars s)
  | _ => []
  end.

(** [v.k] for a name [k] that is not a built-in member; [v] is neither
    [undefined] nor [null] (reading a property of those throws). *)
Definition get (v : JsVal) (k : string) : JsVal :=
  match v with
  | JObj ps => nullish (lookup_prop k ps) JUndefined
  | _ => JUndefined
  end.

(** [v?.k] *)
Definition get_opt (v : JsVal) (k : string) : JsVal :=
  match v with
  | JUndefined | JNull => JUndefined
  | _ => get v k
  end.

(** *** JSON.stringify *)

Definition hex_digit (n : N) : ascii :=
  ascii_of_N (if (n <? 10)%N then 48 + n else 87 + n).

(** Escaping of one character inside a JSON string literal. *)
Definition json_escape (c : ascii) : string :=
  let n := N_of_ascii c in
  if (n =? 34)%N then String "\" (String c "")
  else if (n =? 92)%N then "\\"
  else if (n =? 8)%N then "\b"
  else if (n =? 9)%N then "\t"
  else if (n =? 10)%N then "\n"
  else if (n =? 12)%N then "\f"
  else if (n =? 13)%N then "\r"
  else if (n <? 32)%N then
    "\u00" ++ String (hex_digit (n / 16)) (String (hex_digit (n mod 16)) "")
  else String c "".

Fixpoint json_escape_all (s : string) : string :=
  match s with
  | EmptyString => ""
  | String c s' => json_escape c ++ json_escape_all s'
  end.

Definition json_quote (s : string) : string :=
  String "034" (json_escape_all s ++ String "034" "").

Fixpoint join (sep : string) (l : list string) : string :=
  match l with
  | [] => ""
  | [x] => x
  | x :: l' => x ++ sep ++ join sep l'
  end.

(** [JSON.stringify(v)]; [None] is the [undefined] it returns for
    [undefined].  Inside an array [undefined] prints as [null]; inside an
    object a property whose value is [undefined] is left out. *)
Fixpoint stringify (v : JsVal) : option string :=
  match v with
  | JUndefined => None
  | JNull => Some "null"
  | JBool b => Some (if b then "true" else "false")
  | JNum n => Some (number_to_string n)
  | JStr s => Some (json_quote s)
  | JArr items =>
      Some ("[" ++ join "," (List.map (fun x => nullish (stringify x) "null") items) ++ "]")
  | JObj ps =>
      Some ("{" ++ join ","
              ((fix members (ps : list (string * JsVal)) : list string :=
                  match ps with
                  | [] => []
                  | (k, x) :: ps' =>
                      match stringify x with
                      | Some t => (json_quote k ++ ":" ++ t) :: members ps'
                      | None => members ps'
                      end
                  end) ps) ++ "}")
  end.

(** [s.substring(from, to)] *)
Definition substring (s : string) (from to : nat) : string :=
  String.substring (Nat.min from to) (Nat.max from to - Nat.min from to) s.

Definition to_lower_ascii (c : ascii) : ascii :=
  let n := N_of_ascii c in
  if ((65 <=? n) && (n <=? 90))%N then ascii_of_N (n + 32) else c.

(** [s.toLowerCase()] on ASCII text. *)
Fixpoint toLowerCase (s : string) : string :=
  match s with
  | EmptyString => EmptyString
  | String c s' => String (to_lower_ascii c) (toLowerCase s')
  end.

(** *** parseInt *)

Definition is_whitespace (c : ascii) : bool :=
  let n := N_of_ascii c in
  ((n =? 32) || ((9 <=? n) && (n <=? 13)))%N.

Fixpoint trim_start (s : string) : string :=
  match s with
  | String c s' => if is_whitespace c then trim_start s' else s
  | EmptyString => s
  end.

(** Value of a character as a digit: [0]-[9], then letters from 10 on. *)
Definition digit_value (c : ascii) : option Z :=
  let n := N_of_ascii c in
  if ((48 <=? n) && (n <=? 57))%N then Some (Z.of_N n - 48)
  else if ((97 <=? n) && (n <=? 122))%N then Some (Z.of_N n - 87)
  else if ((65 <=? n) && (n <=? 90))%N then Some (Z.of_N n - 55)
  else None.

(** The longest prefix of digits below [radix], read left to right;
    [seen] tells whether a digit was read already. *)
Fixpoint read_digits (radix : Z) (s : string) (seen : bool) (acc : Z) : option Z :=
  match s with
  | String c s' =>
      match digit_value c with
      | Some d =>
          if d <? radix then read_digits radix s' true (radix * acc + d)
          else if seen then Some acc else None
      | None => if seen then Some acc else None
      end
  | EmptyString => if seen then Some acc else None
  end.

(** [parseInt(s)] without a radix argument; [None] is [NaN]. *)
Definition parseInt (s : string) : option Z :=
  let s1 := trim_start s in
  let '(negative, s2) :=
    match s1 with
    | String "-" r => (true, r)
    | String "+" r => (false, r)
    | _ => (false, s1)
    end in
  let '(radix, s3) :=
    match s2 with
    | String "0" (String "x" r) | String "0" (String "X" r) => (16, r)
    | _ => (10, s2)
    end in
  (fun n => if negative : bool then - n else n) <$> read_digits radix s3 false 0.

End Js.

Import Js.

(** ** Data model *)

(** The four tunables held by the service instance ([this]). *)
Record Config := {
  enableHistoryLogging : bool;
  maxRecordsPerKey : Z;
  maxRequestBodySize : Z;
  maxResponseBodySize : Z
}.

(** [this.defaultConfig] *)
Definition defaultConfig : Config := {|
  enableHistoryLogging := true;
  maxRecordsPerKey := 1000;
  maxRequestBodySize := 5000;
  maxResponseBodySize := 10000
|}.

(** The [status] strings ['pending'], ['success'] and ['error']. *)
Inductive Status := pending | success | error.

Module HistoryRecord.
(** A history record.  The fields of the terminal transitions are [None]
    ([undefined]) or [JUndefined] until [completeRequest] or [failRequest]
    sets them; [duration] is also [None] when the subtraction gives [NaN]. *)
Record t := {
  requestId : string;
  timestamp : string;
  apiKeyId : option string;
  apiKeyName : option string;
  model : JsVal;
  status : Status;
  requestBody : JsVal;
  headers : gmap string JsVal;
  startTime : Z;
  duration : option Z;
  responseBody : JsVal;
  statusCode : option Z;
  inputTokens : option Z;
  outputTokens : option Z;
  cacheCreateTokens : option Z;
  cacheReadTokens : option Z;
  totalTokens : option Z;
  endTime : option Z;
  error : option string
}.
End HistoryRecord.

Module RequestData.
(** Argument of [startRequest]; a field that the caller leaves out is
    [None] / [JUndefined]. *)
Record t := {
  apiKeyId : option string;
  apiKeyName : option string;
  model : JsVal;
  requestBody : JsVal;
  headers : option (gmap string JsVal)
}.
End RequestData.

Module ResponseData.
(** Argument of [completeRequest]; the token counters are numbers when
    supplied. *)
Record t := {
  responseBody : JsVal;
  statusCode : option Z;
  inputTokens : option Z;
  outputTokens : option Z;
  cacheCreateTokens : option Z;
  cacheReadTokens : option Z
}.
End ResponseData.

Module ErrorData.
(** Argument of [failRequest]. *)
Record t := {
  error : option string;
  statusCode : option Z
}.
End ErrorData.

Module NewConfig.
(** Argument of [updateConfig]: any value may sit in any field. *)
Record t := {
  enableHistoryLogging : JsVal;
  maxRecordsPerKey : JsVal;
  maxRequestBodySize : JsVal;
  maxResponseBodySize : JsVal
}.
End NewConfig.

Module SavedConfig.
(** What [JSON.parse] gives for a blob written by [saveConfigToRedis];
    [None] is a field that is missing or [null]. *)
Record t := {
  enableHistoryLogging : option bool;
  maxRecordsPerKey : option Z;
  maxRequestBodySize : option Z;
  maxResponseBodySize : option Z
}.
End SavedConfig.

(** ** The Redis client (../models/redis) *)

Module Redis.

(** The commands the service issues. *)
Inductive Command :=
| Get (key : string)
| Set_ (key value : string)
| SaveRequestHistory (record : HistoryRecord.t)
| GetRequestHistory (requestId : string)
| GetRequestHistoryCount (apiKeyId : string)
| RemoveOldestRequestHistory (apiKeyId : string) (count : Z).

(** Modelled from the spec: models/redis.js is not part of the sources.
    The store keeps string blobs by key ([configGet]/[configSet]), history
    records by request id ([recordPut] is an upsert, [recordGet]) and, per
    owning key, the ids of its records from oldest to newest
    ([recordCount], [recordTrimOldest]).  [issued] lists the commands
    received so far, oldest first; [failing n] tells whether the command
    received after [n] earlier ones raises instead of taking effect. *)
Record Store := {
  blobs : gmap string string;
  records : gmap string HistoryRecord.t;
  byKey : gmap string (list string);
  issued : list Command;
  failing : nat -> bool
}.

(** Modelled from the spec: [configGet(key) -> blob|absent]. *)
Definition get (key : string) (s : Store) : option string * Store :=
  (blobs s !! key, s).

(** Modelled from the spec: [configSet(key, blob)]. *)
Definition set (key value : string) (s : Store) : unit * Store :=
  (tt, {| blobs := <[key := value]> (blobs s); records := records s;
          byKey := byKey s; issued := issued s; failing := failing s |}).

(** Modelled from the spec: [recordPut(record)], an upsert by
    [requestId]; a record seen for the first time is appended to the
    records of its owning key. *)
Definition saveRequestHistory (r : HistoryRecord.t) (s : Store) : unit * Store :=
  let id := HistoryRecord.requestId r in
  let index :=
    match records s !! id, HistoryRecord.apiKeyId r with
    | None, Some k => <[k := (byKey s !!! k ++ [id])%list]> (byKey s)
    | _, _ => byKey s
    end in
  (tt, {| blobs := blobs s; records := <[id := r]> (records s);
          byKey := index; issued := issued s; failing := failing s |}).

(** Modelled from the spec: [recordGet(requestId) -> record|absent]. *)
Definition getRequestHistory (id : string) (s : Store)
  : option HistoryRecord.t * Store :=
  (records s !! id, s).

(** Modelled from the spec: [recordCount(ownerKey) -> int]. *)
Definition getRequestHistoryCount (k : string) (s : Store) : Z * Store :=
  (Z.of_nat (length (byKey s !!! k)), s).

(** Modelled from the spec: [recordTrimOldest(ownerKey, n)] removes the
    [n] oldest records of that owner. *)
Definition removeOldestRequestHistory (k : string) (n : Z) (s : Store)
  : unit * Store :=
  let ids := byKey s !!! k in
  let gone := take (Z.to_nat n) ids in
  (tt, {| blobs := blobs s;
          records := foldr delete (records s) gone;
          byKey := <[k := drop (Z.to_nat n) ids]> (byKey s);
          issued := issued s; failing := failing s |}).

Definition received (c : Command) (s : Store) : Store :=
  {| blobs := blobs s; records := records s; byKey := byKey s;
     issued := (issued s ++ [c])%list; failing := failing s |}.

End Redis.

(** ** Methods as state transformers that may throw *)

Record World := {
  this : Config;
  redis : Redis.Store
}.

Inductive Outcome (A : Type) :=
| Returned (a : A)
| Thrown (what : string).
Arguments Returned {A} a.
Arguments Thrown {A} what.

Definition M (A : Type) : Type := World -> Outcome A * World.

Definition ret {A} (a : A) : M A := fun w => (Returned a, w).

Definition bind {A B} (m : M A) (k : A -> M B) : M B :=
  fun w =>
    match m w with
    | (Returned a, w') => k a w'
    | (Thrown e, w') => (Thrown e, w')
    end.

Definition throw {A} (what : string) : M A := fun w => (Thrown what, w).

(** [try { body } catch (error) { handler }]: what [body] did before it
    threw stays done. *)
Definition try_catch {A} (body : M A) (handler : M A) : M A :=
  fun w =>
    match body w with
    | (Returned a, w') => (Returned a, w')
    | (Thrown _, w') => handler w'
    end.

Declare Scope js_scope.
Delimit Scope js_scope with js.
Notation "x <- m ;; k" := (bind m (fun x => k))
  (at level 100, m at next level, right associativity) : js_scope.
Notation "m ;;; k" := (bind m (fun _ => k))
  (at level 100, right associativity) : js_scope.
Local Open Scope js_scope.

Definition read_this : M Config := fun w => (Returned (this w), w).

Definition write_this (f : Config -> Config) : M unit :=
  fun w => (Returned tt, {| this := f (this w); redis := redis w |}).

(** [await redis.command(...)]: the command is received, then raises or
    takes effect. *)
Definition await {A} (c : Redis.Command)
    (effect : Redis.Store -> A * Redis.Store) : M A :=
  fun w =>
    let s := Redis.received c (redis w) in
    if Redis.failing (redis w) (length (Redis.issued (redis w))) then
      (Thrown "redis", {| this := this w; redis := s |})
    else
      let '(a, s') := effect s in
      (Returned a, {| this := this w; redis := s' |}).

(** [JSON.stringify(v)] used as a string: [.length] of [undefined] throws. *)
Definition json_text (v : JsVal) : M string :=
  match stringify v with
  | Some s => ret s
  | None => throw "TypeError"
  end.

Definition json_length (v : JsVal) : M Z :=
  s <- json_text v ;; ret (Z.of_nat (String.length s)).

(** ** The service *)

Definition config_key : string := "request_history_config".

(** The object literal that [saveConfigToRedis] serialises; [iso] is
    [new Date().toISOString()]. *)
Definition config_object (iso : string) (c : Config) : JsVal :=
  JObj [
    ("enableHistoryLogging", JBool (enableHistoryLogging c));
    ("maxRecordsPerKey", JNum (maxRecordsPerKey c));
    ("maxRequestBodySize", JNum (maxRequestBodySize c));
    ("maxResponseBodySize", JNum (maxResponseBodySize c));
    ("updatedAt", JStr iso)].

(** [saveConfigToRedis()] *)
Definition saveConfigToRedis (iso : string) : M bool :=
  try_catch
    (c <- read_this ;;
     let config := config_object iso c in
     blob <- json_text config ;;
     await (Redis.Set_ config_key blob) (Redis.set config_key blob) ;;;
     ret true)
    (ret false).

Section Initialize.

(** [JSON.parse] on the configuration blob; [None] is a [SyntaxError]. *)
Variable JSON_parse : string -> option SavedConfig.t.

(** [loadConfigFromRedis()]; [None] is [null]. *)
Definition loadConfigFromRedis : M (option SavedConfig.t) :=
  try_catch
    (configData <- await (Redis.Get config_key) (Redis.get config_key) ;;
     if str_falsy configData then ret None
     else
       match JSON_parse (nullish configData "") with
       | Some parsed => ret (Some parsed)
       | None => throw "SyntaxError"
       end)
    (ret None).

(** [initializeConfig()] *)
Definition initializeConfig (iso : string) : M unit :=
  try_catch
    (savedConfig <- loadConfigFromRedis ;;
     match savedConfig with
     | Some savedConfig =>
         write_this (fun _ => {|
           enableHistoryLogging :=
             nullish (SavedConfig.enableHistoryLogging savedConfig)
                     (enableHistoryLogging defaultConfig);
           maxRecordsPerKey :=
             nullish (SavedConfig.maxRecordsPerKey savedConfig)
                     (maxRecordsPerKey defaultConfig);
           maxRequestBodySize :=
             nullish (SavedConfig.maxRequestBodySize savedConfig)
                     (maxRequestBodySize defaultConfig);
           maxResponseBodySize :=
             nullish (SavedConfig.maxResponseBodySize savedConfig)
                     (maxResponseBodySize defaultConfig) |})
     | None =>
         write_this (fun _ => defaultConfig) ;;;
         _ <- saveConfigToRedis iso ;;
         ret tt
     end)
    (write_this (fun _ => defaultConfig)).

End Initialize.

(** [getCurrentConfig()] *)
Definition getCurrentConfig : M Config := read_this.

Definition sensitiveHeaders : list string :=
  ["authorization"; "x-api-key"; "cookie"; "set-cookie"; "proxy-authorization"].

(** [list.includes(s)] *)
Definition includes (l : list string) (s : string) : bool :=
  existsb (String.eqb s) l.

Definition redacted : JsVal := JStr "[REDACTED]".

(** [sanitized[key] = value] on an object made by the literal [{}]: the
    name [__proto__] is not created as an own property, the assignment
    goes to the accessor that [Object.prototype] has under that name; any
    other name becomes, or stays, an own property with that value. *)
Definition assign_own (key : string) (value : JsVal)
    (sanitized : gmap string JsVal) : gmap string JsVal :=
  if String.eqb key "__proto__" then sanitized else <[key := value]> sanitized.

(** [sanitizeHeaders(headers)]: one assignment [sanitized[key] = ...] per
    entry of [Object.entries(headers)]; the result is given by its own
    properties. *)
Definition sanitizeHeaders (headers : option (gmap string JsVal))
  : gmap string JsVal :=
  match headers with
  | None => ∅
  | Some headers =>
      map_fold
        (fun key value sanitized =>
           if includes sensitiveHeaders (toLowerCase key)
           then assign_own key redacted sanitized
           else assign_own key value sanitized)
        ∅ headers
  end.

(** [enforceRecordLimit(apiKeyId)] *)
Definition enforceRecordLimit (apiKeyId : option string) : M unit :=
  if str_falsy apiKeyId then ret tt
  else
    let key := nullish apiKeyId "" in
    try_catch
      (recordCount <-
         await (Redis.GetRequestHistoryCount key) (Redis.getRequestHistoryCount key) ;;
       c <- read_this ;;
       let cleanupThreshold := maxRecordsPerKey c + 100 in
       if recordCount >? cleanupThreshold then
         let excessCount := recordCount - maxRecordsPerKey c in
         await (Redis.RemoveOldestRequestHistory key excessCount)
               (Redis.removeOldestRequestHistory key excessCount)
       else ret tt)
      (ret tt).

Definition truncated_messages : JsVal := JStr "[TRUNCATED - Large Messages]".

(** The request body as [startRequest] stores it. *)
Definition limitRequestBody (requestBody : JsVal) : M JsVal :=
  if truthy requestBody then
    size <- json_length requestBody ;;
    c <- read_this ;;
    if size >? maxRequestBodySize c then
      ret (JObj (assign_prop "messages"
                   (if truthy (Js.get requestBody "messages")
                    then truncated_messages
                    else Js.get requestBody "messages")
                   (spread requestBody)))
    else ret requestBody
  else ret requestBody.

(** The object literal [historyRecord] of [startRequest]: [requestBody]
    is the body after the size limit, [now] is [Date.now()]. *)
Definition historyRecord (requestId timestamp : string) (now : Z)
    (requestData : RequestData.t) (requestBody : JsVal) : HistoryRecord.t := {|
  HistoryRecord.requestId := requestId;
  HistoryRecord.timestamp := timestamp;
  HistoryRecord.apiKeyId := RequestData.apiKeyId requestData;
  HistoryRecord.apiKeyName := RequestData.apiKeyName requestData;
  HistoryRecord.model :=
    or_else (or_else (RequestData.model requestData)
                     (get_opt (RequestData.requestBody requestData) "model"))
            (JStr "unknown");
  HistoryRecord.status := pending;
  HistoryRecord.requestBody := requestBody;
  HistoryRecord.headers := sanitizeHeaders (RequestData.headers requestData);
  HistoryRecord.startTime := now;
  HistoryRecord.duration := None;
  HistoryRecord.responseBody := JUndefined;
  HistoryRecord.statusCode := None;
  HistoryRecord.inputTokens := None;
  HistoryRecord.outputTokens := None;
  HistoryRecord.cacheCreateTokens := None;
  HistoryRecord.cacheReadTokens := None;
  HistoryRecord.totalTokens := None;
  HistoryRecord.endTime := None;
  HistoryRecord.error := None
|}.

(** [startRequest(requestData)]; [uuid] is [uuidv4()], [iso] is
    [new Date().toISOString()], [now] is [Date.now()]; the result [None]
    is [null]. *)
Definition startRequest (uuid iso : string) (now : Z)
    (requestData : RequestData.t) : M (option string) :=
  c <- read_this ;;
  if negb (enableHistoryLogging c) then ret None
  else
    try_catch
      (let requestId := uuid in
       let timestamp := iso in
       requestBody <- limitRequestBody (RequestData.requestBody requestData) ;;
       let historyRecord :=
         historyRecord requestId timestamp now requestData requestBody in
       await (Redis.SaveRequestHistory historyRecord)
             (Redis.saveRequestHistory historyRecord) ;;;
       enforceRecordLimit (RequestData.apiKeyId requestData) ;;;
       ret (Some requestId))
      (ret None).

(** The response body as [completeRequest] stores it. *)
Definition limitResponseBody (responseBody : JsVal) : M JsVal :=
  if truthy responseBody then
    size <- json_length responseBody ;;
    c <- read_this ;;
    if size >? maxResponseBodySize c then
      originalLength <- json_length responseBody ;;
      text <- json_text responseBody ;;
      ret (JObj [("type", JStr "truncated");
                 ("originalLength", JNum originalLength);
                 ("preview", JStr (Js.substring text 0 1000 ++ "..."))])
    else ret responseBody
  else ret responseBody.

(** [endTime - parseInt(existingRecord.startTime)]: [parseInt] reads the
    decimal text of the stored number. *)
Definition elapsed (endTime : Z) (existingRecord : HistoryRecord.t) : option Z :=
  (fun started => endTime - started)
    <$> parseInt (number_to_string (HistoryRecord.startTime existingRecord)).

(** The object literal [updatedRecord] of [completeRequest]:
    [{...existingRecord, status: 'success', ...}]. *)
Definition completedRecord (existingRecord : HistoryRecord.t)
    (duration : option Z) (responseBody : JsVal)
    (responseData : ResponseData.t) (endTime : Z) : HistoryRecord.t := {|
  HistoryRecord.requestId := HistoryRecord.requestId existingRecord;
  HistoryRecord.timestamp := HistoryRecord.timestamp existingRecord;
  HistoryRecord.apiKeyId := HistoryRecord.apiKeyId existingRecord;
  HistoryRecord.apiKeyName := HistoryRecord.apiKeyName existingRecord;
  HistoryRecord.model := HistoryRecord.model existingRecord;
  HistoryRecord.requestBody := HistoryRecord.requestBody existingRecord;
  HistoryRecord.headers := HistoryRecord.headers existingRecord;
  HistoryRecord.startTime := HistoryRecord.startTime existingRecord;
  HistoryRecord.error := HistoryRecord.error existingRecord;
  HistoryRecord.status := success;
  HistoryRecord.duration := duration;
  HistoryRecord.responseBody := responseBody;
  HistoryRecord.statusCode := ResponseData.statusCode responseData;
  HistoryRecord.inputTokens :=
    Some (num_or (ResponseData.inputTokens responseData) 0);
  HistoryRecord.outputTokens :=
    Some (num_or (ResponseData.outputTokens responseData) 0);
  HistoryRecord.cacheCreateTokens :=
    Some (num_or (ResponseData.cacheCreateTokens responseData) 0);
  HistoryRecord.cacheReadTokens :=
    Some (num_or (ResponseData.cacheReadTokens responseData) 0);
  HistoryRecord.totalTokens :=
    Some (num_or (ResponseData.inputTokens responseData) 0
          + num_or (ResponseData.outputTokens responseData) 0
          + num_or (ResponseData.cacheCreateTokens responseData) 0
          + num_or (ResponseData.cacheReadTokens responseData) 0);
  HistoryRecord.endTime := Some endTime
|}.

(** [completeRequest(requestId, responseData)]; [now] is [Date.now()]. *)
Definition completeRequest (now : Z) (requestId : option string)
    (responseData : ResponseData.t) : M unit :=
  c <- read_this ;;
  if negb (enableHistoryLogging c) || str_falsy requestId then ret tt
  else
    let id := nullish requestId "" in
    try_catch
      (existingRecord <-
         await (Redis.GetRequestHistory id) (Redis.getRequestHistory id) ;;
       match existingRecord with
       | None => ret tt
       | Some existingRecord =>
           let endTime := now in
           let duration := elapsed endTime existingRecord in
           responseBody <- limitResponseBody (ResponseData.responseBody responseData) ;;
           let updatedRecord :=
             completedRecord existingRecord duration responseBody responseData
               endTime in
           await (Redis.SaveRequestHistory updatedRecord)
                 (Redis.saveRequestHistory updatedRecord)
       end)
      (ret tt).

(** The object literal [updatedRecord] of [failRequest]:
    [{...existingRecord, status: 'error', ...}]. *)
Definition failedRecord (existingRecord : HistoryRecord.t)
    (duration : option Z) (errorData : ErrorData.t) (endTime : Z)
  : HistoryRecord.t := {|
  HistoryRecord.requestId := HistoryRecord.requestId existingRecord;
  HistoryRecord.timestamp := HistoryRecord.timestamp existingRecord;
  HistoryRecord.apiKeyId := HistoryRecord.apiKeyId existingRecord;
  HistoryRecord.apiKeyName := HistoryRecord.apiKeyName existingRecord;
  HistoryRecord.model := HistoryRecord.model existingRecord;
  HistoryRecord.requestBody := HistoryRecord.requestBody existingRecord;
  HistoryRecord.headers := HistoryRecord.headers existingRecord;
  HistoryRecord.startTime := HistoryRecord.startTime existingRecord;
  HistoryRecord.responseBody := HistoryRecord.responseBody existingRecord;
  HistoryRecord.inputTokens := HistoryRecord.inputTokens existingRecord;
  HistoryRecord.outputTokens := HistoryRecord.outputTokens existingRecord;
  HistoryRecord.cacheCreateTokens := HistoryRecord.cacheCreateTokens existingRecord;
  HistoryRecord.cacheReadTokens := HistoryRecord.cacheReadTokens existingRecord;
  HistoryRecord.totalTokens := HistoryRecord.totalTokens existingRecord;
  HistoryRecord.status := error;
  HistoryRecord.duration := duration;
  HistoryRecord.error := Some (str_or (ErrorData.error errorData) "Unknown error");
  HistoryRecord.statusCode := Some (num_or (ErrorData.statusCode errorData) 500);
  HistoryRecord.endTime := Some endTime
|}.

(** [failRequest(requestId, errorData)]; [now] is [Date.now()]. *)
Definition failRequest (now : Z) (requestId : option string)
    (errorData : ErrorData.t) : M unit :=
  c <- read_this ;;
  if negb (enableHistoryLogging c) || str_falsy requestId then ret tt
  else
    let id := nullish requestId "" in
    try_catch
      (existingRecord <-
         await (Redis.GetRequestHistory id) (Redis.getRequestHistory id) ;;
       match existingRecord with
       | None => ret tt
       | Some existingRecord =>
           let endTime := now in
           let duration := elapsed endTime existingRecord in
           let updatedRecord :=
             failedRecord existingRecord duration errorData endTime in
           await (Redis.SaveRequestHistory updatedRecord)
                 (Redis.saveRequestHistory updatedRecord)
       end)
      (ret tt).

(** [getRequestDetails(requestId)]; the result [None] is [null]. *)
Definition getRequestDetails (requestId : string) : M (option HistoryRecord.t) :=
  try_catch
    (await (Redis.GetRequestHistory requestId) (Redis.getRequestHistory requestId))
    (ret None).

(** [typeof v === 'boolean'] *)
Definition as_boolean (v : JsVal) : option bool :=
  match v with JBool b => Some b | _ => None end.

(** [typeof v === 'number' && v > 0] *)
Definition as_positive_number (v : JsVal) : option Z :=
  match v with
  | JNum n => if n >? 0 then Some n else None
  | _ => None
  end.

(** [updateConfig(newConfig)]; [None] is a [newConfig] that is [null] or
    [undefined], whose first property read throws. *)
Definition updateConfig (iso : string) (newConfig : option NewConfig.t) : M bool :=
  try_catch
    (newConfig <- match newConfig with
                  | Some n => ret n
                  | None => throw "TypeError"
                  end ;;
     match as_boolean (NewConfig.enableHistoryLogging newConfig) with
     | Some b =>
         write_this (fun c => {|
           enableHistoryLogging := b;
           maxRecordsPerKey := maxRecordsPerKey c;
           maxRequestBodySize := maxRequestBodySize c;
           maxResponseBodySize := maxResponseBodySize c |})
     | None => ret tt
     end ;;;
     match as_positive_number (NewConfig.maxRecordsPerKey newConfig) with
     | Some n =>
         write_this (fun c => {|
           enableHistoryLogging := enableHistoryLogging c;
           maxRecordsPerKey := n;
           maxRequestBodySize := maxRequestBodySize c;
           maxResponseBodySize := maxResponseBodySize c |})
     | None => ret tt
     end ;;;
     match as_positive_number (NewConfig.maxRequestBodySize newConfig) with
     | Some n =>
         write_this (fun c => {|
           enableHistoryLogging := enableHistoryLogging c;
           maxRecordsPerKey := maxRecordsPerKey c;
           maxRequestBodySize := n;
           maxResponseBodySize := maxResponseBodySize c |})
     | None => ret tt
     end ;;;
     match as_positive_number (NewConfig.maxResponseBodySize newConfig) with
     | Some n =>
         write_this (fun c => {|
           enableHistoryLogging := enableHistoryLogging c;
           maxRecordsPerKey := maxRecordsPerKey c;
           maxRequestBodySize := maxRequestBodySize c;
           maxResponseBodySize := n |})
     | None => ret tt
     end ;;;
     saved <- saveConfigToRedis iso ;;
     if saved then ret true else ret false)
    (ret false).

(** *** Read side *)

Section QueryService.

(** The three store calls of the read side, [redis.getRequestHistoryList],
    [redis.getRequestHistoryStats] and [redis.deleteRequestHistory]
    (models/redis.js is not part of the sources): any computation that
    returns or throws. *)
Variable redis_getRequestHistoryList : JsVal -> M (list HistoryRecord.t).
Variable redis_getRequestHistoryStats : option string -> JsVal -> JsVal -> M JsVal.
Variable redis_deleteRequestHistory : string -> M bool.

(** A parameter with a default value: the default stands in for
    [undefined] only. *)
Definition defaulted (v d : JsVal) : JsVal :=
  match v with JUndefined => d | _ => v end.

(** [getRequestHistory(options = {})] *)
Definition getRequestHistory (options : JsVal) : M (list HistoryRecord.t) :=
  try_catch
    (redis_getRequestHistoryList (defaulted options (JObj [])))
    (ret []).

(** The object [getRequestStats] returns when the store call throws. *)
Definition zero_stats : JsVal :=
  JObj [("totalRequests", JNum 0);
        ("successRequests", JNum 0);
        ("failedRequests", JNum 0);
        ("totalTokens", JNum 0);
        ("avgDuration", JNum 0);
        ("modelStats", JObj []);
        ("statusStats", JObj [])].

(** [getRequestStats(apiKeyId, startTime = null, endTime = null)] *)
Definition getRequestStats (apiKeyId : option string) (startTime endTime : JsVal)
  : M JsVal :=
  try_catch
    (redis_getRequestHistoryStats apiKeyId
       (defaulted startTime JNull) (defaulted endTime JNull))
    (ret zero_stats).

(** [deleteRequest(requestId)] *)
Definition deleteRequest (requestId : string) : M bool :=
  try_catch (redis_deleteRequestHistory requestId) (ret false).

End QueryService.

(** ** Notions used in the statements *)

(** The text [JSON.stringify] gives for the configuration object. *)
Definition config_blob (iso : string) (c : Config) : string :=
  nullish (stringify (config_object iso c)) "".

(** The serialized size of a value: the length of its JSON text. *)
Definition json_size (v : JsVal) : Z :=
  Z.of_nat (String.length (nullish (stringify v) "")).

(** The members of an object in its JSON text. *)
Fixpoint members (ps : list (string * JsVal)) : list string :=
  match ps with
  | [] => []
  | (k, x) :: ps' =>
      match stringify x with
      | Some t => (json_quote k ++ ":" ++ t) :: members ps'
      | None => members ps'
      end
  end.

(** The store answers every command. *)
Definition store_up (s : Redis.Store) : Prop :=
  forall n, Redis.failing s n = false.

(** The command that the store receives next raises. *)
Definition next_command_fails (s : Redis.Store) : bool :=
  Redis.failing s (length (Redis.issued s)).

(** The store once [set(key, value)] was received and took effect. *)
Definition after_set (key value : string) (s : Redis.Store) : Redis.Store :=
  snd (Redis.set key value (Redis.received (Redis.Set_ key value) s)).

(** The configuration in which every field of [n] that is present and
    well-typed (a boolean for the switch, a number above 0 for a limit)
    replaces the field of [c], and the other fields of [c] stay. *)
Definition valid_fields_applied (n : NewConfig.t) (c : Config) : Config := {|
  enableHistoryLogging :=
    match NewConfig.enableHistoryLogging n with
    | JBool b => b
    | _ => enableHistoryLogging c
    end;
  maxRecordsPerKey :=
    match NewConfig.maxRecordsPerKey n with
    | JNum z => if 0 <? z then z else maxRecordsPerKey c
    | _ => maxRecordsPerKey c
    end;
  maxRequestBodySize :=
    match NewConfig.maxRequestBodySize n with
    | JNum z => if 0 <? z then z else maxRequestBodySize c
    | _ => maxRequestBodySize c
    end;
  maxResponseBodySize :=
    match NewConfig.maxResponseBodySize n with
    | JNum z => if 0 <? z then z else maxResponseBodySize c
    | _ => maxResponseBodySize c
    end
|}.

(** Number denoted by a decimal numeral, read left to right from [acc]. *)
Fixpoint horner (d : Decimal.uint) (acc : Z) : Z :=
  match d with
  | Decimal.Nil => acc
  | Decimal.D0 l => horner l (10 * acc + 0)
  | Decimal.D1 l => horner l (10 * acc + 1)
  | Decimal.D2 l => horner l (10 * acc + 2)
  | Decimal.D3 l => horner l (10 * acc + 3)
  | Decimal.D4 l => horner l (10 * acc + 4)
  | Decimal.D5 l => horner l (10 * acc + 5)
  | Decimal.D6 l => horner l (10 * acc + 6)
  | Decimal.D7 l => horner l (10 * acc + 7)
  | Decimal.D8 l => horner l (10 * acc + 8)
  | Decimal.D9 l => horner l (10 * acc + 9)
  end.

(** ** Sample worlds and arguments *)

(** An empty store whose commands fail as [failing] says. *)
Definition empty_store (failing : nat -> bool) : Redis.Store := {|
  Redis.blobs := ∅; Redis.records := ∅; Redis.byKey := ∅;
  Redis.issued := []; Redis.failing := failing
|}.

Definition never : nat -> bool := fun _ => false.
Definition always : nat -> bool := fun _ => true.
Definition first_only : nat -> bool := fun n => Nat.eqb n 0.

(** The service with the built-in defaults over an empty store. *)
Definition fresh_world (failing : nat -> bool) : World :=
  {| this := defaultConfig; redis := empty_store failing |}.

(** [{ enableHistoryLogging: false, maxRecordsPerKey: -5,
       maxRequestBodySize: 2048, maxResponseBodySize: '7' }] *)
Definition sample_update : NewConfig.t := {|
  NewConfig.enableHistoryLogging := JBool false;
  NewConfig.maxRecordsPerKey := JNum (-5);
  NewConfig.maxRequestBodySize := JNum 2048;
  NewConfig.maxResponseBodySize := JStr "7"
|}.

(** A pending record of owner [key]. *)
Definition sample_record (id key : string) (started : Z) : HistoryRecord.t := {|
  HistoryRecord.requestId := id;
  HistoryRecord.timestamp := "2025-01-01T00:00:00.000Z";
  HistoryRecord.apiKeyId := Some key;
  HistoryRecord.apiKeyName := Some "sample";
  HistoryRecord.model := JStr "unknown";
  HistoryRecord.status := pending;
  HistoryRecord.requestBody := JUndefined;
  HistoryRecord.headers := ∅;
  HistoryRecord.startTime := started;
  HistoryRecord.duration := None;
  HistoryRecord.responseBody := JUndefined;
  HistoryRecord.statusCode := None;
  HistoryRecord.inputTokens := None;
  HistoryRecord.outputTokens := None;
  HistoryRecord.cacheCreateTokens := None;
  HistoryRecord.cacheReadTokens := None;
  HistoryRecord.totalTokens := None;
  HistoryRecord.endTime := None;
  HistoryRecord.error := None
|}.

(** The store after [n] records ["r0"], ["r1"], ... of owner ["key-1"]
    were saved into an empty one. *)
Definition crowded_store (n : nat) : Redis.Store :=
  foldl
    (fun s i =>
       snd (Redis.saveRequestHistory
              (sample_record ("r" ++ number_to_string (Z.of_nat i)) "key-1"
                 (Z.of_nat i)) s))
    (empty_store never) (seq 0 n).

Definition crowded_world (n : nat) : World :=
  {| this := defaultConfig; redis := crowded_store n |}.

(** [{ maxRequestBodySize: request, maxResponseBodySize: response }] *)
Definition body_limits (request response : Z) : NewConfig.t := {|
  NewConfig.enableHistoryLogging := JUndefined;
  NewConfig.maxRecordsPerKey := JUndefined;
  NewConfig.maxRequestBodySize := JNum request;
  NewConfig.maxResponseBodySize := JNum response
|}.

(** The service after [updateConfig] set both body limits to 40. *)
Definition tight_world : World :=
  snd (updateConfig "2025-01-01T00:00:00.000Z" (Some (body_limits 40 40))
         (fresh_world never)).

(** The service after [updateConfig] set the response limit to 1. *)
Definition tightest_world : World :=
  snd (updateConfig "2025-01-01T00:00:00.000Z" (Some (body_limits 5000 1))
         (fresh_world never)).

Definition chat_body : list (string * JsVal) :=
  [("model", JStr "claude-3");
   ("messages", JArr [JObj [("role", JStr "user");
                            ("content", JStr "a question of some length")]]);
   ("max_tokens", JNum 256)].

Definition prompt_body : list (string * JsVal) :=
  [("model", JStr "claude-3");
   ("prompt", JStr "a prompt of some length, with no messages");
   ("max_tokens", JNum 256)].

Definition sample_request (body : JsVal) : RequestData.t := {|
  RequestData.apiKeyId := Some "key-1";
  RequestData.apiKeyName := Some "sample";
  RequestData.model := JUndefined;
  RequestData.requestBody := body;
  RequestData.headers := Some (<["Authorization" := JStr "Bearer s3cr3t"]> ∅)
|}.

(** The world after a request ["id-1"] was started at time 1000. *)
Definition started_world : World :=
  snd (startRequest "id-1" "2025-01-01T00:00:00.000Z" 1000
         (sample_request (JObj chat_body)) tight_world).

Definition started_tightest_world : World :=
  snd (startRequest "id-1" "2025-01-01T00:00:00.000Z" 1000
         (sample_request (JObj chat_body)) tightest_world).

(** A response that leaves out two of the token counters. *)
Definition sample_response (body : JsVal) : ResponseData.t := {|
  ResponseData.responseBody := body;
  ResponseData.statusCode := Some 200;
  ResponseData.inputTokens := Some 12;
  ResponseData.outputTokens := None;
  ResponseData.cacheCreateTokens := None;
  ResponseData.cacheReadTokens := Some 30
|}.

Definition long_answer : JsVal :=
  JObj [("id", JStr "msg_01");
        ("content", JStr "an answer that is longer than forty characters")].

(** [{}]: neither an error message nor a status code. *)
Definition bare_error : ErrorData.t :=
  {| ErrorData.error := None; ErrorData.statusCode := None |}.

Definition overloaded_error : ErrorData.t :=
  {| ErrorData.error := Some "overloaded"; ErrorData.statusCode := Some 529 |}.

(** ** Further notions and samples *)

(** The three limits are above 0. *)
Definition limits_positive (c : Config) : Prop :=
  0 < maxRecordsPerKey c /\ 0 < maxRequestBodySize c /\ 0 < maxResponseBodySize c.

(** No value under a name of the denylist other than the marker. *)
Definition headers_redacted (h : gmap string JsVal) : Prop :=
  forall k v, h !! k = Some v ->
    includes sensitiveHeaders (toLowerCase k) = true -> v = redacted.

(** What a command may carry to the store for a request [rd]: a record
    is sent with the sanitized headers of [rd], none of them under a
    sensitive name with a value other than the marker. *)
Definition carries_redacted (rd : RequestData.t) (c : Redis.Command) : Prop :=
  match c with
  | Redis.SaveRequestHistory r =>
      HistoryRecord.headers r = sanitizeHeaders (RequestData.headers rd)
      /\ headers_redacted (HistoryRecord.headers r)
  | _ => True
  end.

(** A sequence of [updateConfig] calls, each with its timestamp. *)
Definition run_updates (calls : list (string * option NewConfig.t)) (w : World)
  : World :=
  foldl (fun w call => snd (updateConfig (fst call) (snd call) w)) w calls.

Definition second_only : nat -> bool := fun n => Nat.eqb n 1.

(** The service after [updateConfig] switched logging off. *)
Definition silent_world : World :=
  snd (updateConfig "2025-01-01T00:00:00.000Z" (Some sample_update)
         (fresh_world never)).

(** The service started again, with the defaults in memory, over the store
    in which [updateConfig] saved the configuration of [sample_update]; the
    next command of that store, the read, raises. *)
Definition restarted_world : World :=
  {| this := defaultConfig;
     redis := redis (snd (updateConfig "2025-01-01T00:00:00.000Z"
                            (Some sample_update) (fresh_world second_only))) |}.

(** [{ error: '', statusCode: 0 }] *)
Definition zero_error : ErrorData.t :=
  {| ErrorData.error := Some ""; ErrorData.statusCode := Some 0 |}.

(** A body that is an array: it has no [messages] field. *)
Definition list_body : JsVal :=
  JArr [JStr "a list of strings that is longer than forty characters"].

(** * Properties *)

(** ** parseInt reads back the decimal text of a number *)

Lemma read_digits_decimal d acc :
  read_digits 10 (NilEmpty.string_of_uint d) true acc = Some (horner d acc).
Proof.
  revert acc. induction d; intros acc; simpl; try reflexivity; apply IHd.
Qed.

Lemma horner_pos d p : horner d (Z.pos p) = Z.pos (Pos.of_uint_acc d p).
Proof.
  revert p. induction d; intros p; simpl; try reflexivity;
    rewrite <- IHd; f_equal; lia.
Qed.

Lemma horner_zero d : horner d 0 = Z.of_uint d.
Proof.
  unfold Z.of_uint. induction d; simpl; try reflexivity; try assumption;
    match goal with |- horner _ ?k = _ => change k with (Z.pos (Z.to_pos k)) end;
    rewrite horner_pos; reflexivity.
Qed.

Lemma parseInt_unsigned d :
  d <> Decimal.Nil ->
  parseInt (NilEmpty.string_of_uint d) = Some (Z.of_uint d)
  /\ parseInt (String "-" (NilEmpty.string_of_uint d)) = Some (- Z.of_uint d).
Proof.
  intros Hd. rewrite <- horner_zero.
  destruct d as [|l|l|l|l|l|l|l|l|l|l]; try congruence;
    try (unfold parseInt; cbn -[read_digits horner];
         simpl; rewrite read_digits_decimal; split; reflexivity).
  destruct l; unfold parseInt; cbn -[read_digits horner]; simpl;
    try rewrite read_digits_decimal; split; reflexivity.
Qed.

Lemma to_uint_not_nil p : Pos.to_uint p <> Decimal.Nil.
Proof.
  intros E. pose proof (DecimalPos.Unsigned.of_to p) as H.
  rewrite E in H. discriminate H.
Qed.

Lemma string_of_uint_not_nil d :
  d <> Decimal.Nil -> NilZero.string_of_uint d = NilEmpty.string_of_uint d.
Proof. destruct d; congruence || reflexivity. Qed.

Lemma parseInt_number_to_string z : parseInt (number_to_string z) = Some z.
Proof.
  unfold number_to_string.
  destruct z as [|p|p]; [reflexivity| |]; simpl;
    rewrite (string_of_uint_not_nil _ (to_uint_not_nil p));
    destruct (parseInt_unsigned _ (to_uint_not_nil p)) as [Hpos Hneg];
    [rewrite Hpos | rewrite Hneg]; unfold Z.of_uint;
    rewrite DecimalPos.Unsigned.of_to; reflexivity.
Qed.

Lemma elapsed_since_start endTime r :
  elapsed endTime r = Some (endTime - HistoryRecord.startTime r).
Proof. unfold elapsed. rewrite parseInt_number_to_string. reflexivity. Qed.

(** ** Values, objects and JSON text *)

Lemma stringify_defined v : v <> JUndefined -> is_Some (stringify v).
Proof. destruct v; intros H; try congruence; simpl; eauto. Qed.

Lemma stringify_truthy v : truthy v = true -> is_Some (stringify v).
Proof. intros H. apply stringify_defined. intros ->. discriminate H. Qed.

Lemma substring_prefix_length n s :
  (String.length (String.substring 0 n s) <= n)%nat.
Proof.
  revert s. induction n as [|n IH]; intros [|c s]; simpl; try lia.
  specialize (IH s). lia.
Qed.

Lemma string_length_app (a b : string) :
  String.length (a ++ b) = (String.length a + String.length b)%nat.
Proof. induction a as [|c a IH]; simpl; [reflexivity | rewrite IH; reflexivity]. Qed.

Lemma num_or_zero o : num_or o 0 = default 0 o.
Proof.
  destruct o as [n|]; simpl; [|reflexivity].
  destruct (Z.eqb_spec n 0); congruence.
Qed.

(** ** Redaction *)

Lemma sanitizeHeaders_lookup (h : gmap string JsVal) (k : string) :
  sanitizeHeaders (Some h) !! k =
  if String.eqb k "__proto__" then None
  else (fun v => if includes sensitiveHeaders (toLowerCase k) then redacted else v)
         <$> h !! k.
Proof.
  unfold sanitizeHeaders.
  apply (map_fold_weak_ind
           (fun (r : gmap string JsVal) (m : gmap string JsVal) =>
              r !! k =
              if String.eqb k "__proto__" then None
              else (fun v => if includes sensitiveHeaders (toLowerCase k)
                             then redacted else v) <$> m !! k)).
  - rewrite !lookup_empty. destruct (String.eqb k "__proto__"); reflexivity.
  - intros i x m r Hi IH. cbv beta in *. unfold assign_own.
    destruct (decide (i = k)) as [->|Hne].
    + rewrite (lookup_insert_eq m). revert IH.
      destruct (String.eqb k "__proto__"); intros IH.
      * destruct (includes sensitiveHeaders (toLowerCase k)); exact IH.
      * destruct (includes sensitiveHeaders (toLowerCase k));
          rewrite lookup_insert_eq; reflexivity.
    + rewrite (lookup_insert_ne m) by exact Hne.
      destruct (String.eqb i "__proto__");
        destruct (includes sensitiveHeaders (toLowerCase i));
        rewrite ?lookup_insert_ne by exact Hne; exact IH.
Qed.

(** C4. Not every pair whose name is off the denylist passes through.
    For headers that have [__proto__] as an own name (as [JSON.parse]
    makes them), [sanitized[key] = value] does not create that property:
    the pair is missing from the result, which holds the other header
    only. *)
Lemma sanitizeHeaders_drops_own_proto_name :
  let headers : gmap string JsVal :=
    <["__proto__" := JStr "x"]> (<["accept" := JStr "*/*"]> ∅) in
  headers !! "__proto__" = Some (JStr "x")
  /\ includes sensitiveHeaders (toLowerCase "__proto__") = false
  /\ sanitizeHeaders (Some headers) !! "__proto__" = None
  /\ sanitizeHeaders (Some headers) = <["accept" := JStr "*/*"]> ∅.
Proof. vm_compute. repeat split. Qed.

(** X25. [sanitizeHeaders] is idempotent; a key whose lowercase form is on
    the denylist keeps its spelling and gets the redaction marker as its
    value; every other key keeps its value, but for [__proto__], which the
    result never has as an own name; no key is added; and a [null] or
    absent argument gives the empty mapping. *)
Theorem sanitizeHeaders_redacts_and_is_idempotent :
  (forall h : option (gmap string JsVal),
     sanitizeHeaders (Some (sanitizeHeaders h)) = sanitizeHeaders h)
  /\ (forall (h : gmap string JsVal) (k : string),
        sanitizeHeaders (Some h) !! k =
        if String.eqb k "__proto__" then None
        else if includes sensitiveHeaders (toLowerCase k)
             then (fun _ => JStr "[REDACTED]") <$> h !! k
             else h !! k)
  /\ sensitiveHeaders =
       ["authorization"; "x-api-key"; "cookie"; "set-cookie"; "proxy-authorization"]
  /\ sanitizeHeaders None = ∅.
Proof.
  assert (Hlook : forall (h : gmap string JsVal) (k : string),
             sanitizeHeaders (Some h) !! k =
             if String.eqb k "__proto__" then None
             else if includes sensitiveHeaders (toLowerCase k)
                  then (fun _ => JStr "[REDACTED]") <$> h !! k
                  else h !! k).
  { intros h k. rewrite sanitizeHeaders_lookup.
    destruct (String.eqb k "__proto__"); [reflexivity|].
    destruct (includes sensitiveHeaders (toLowerCase k)); destruct (h !! k); reflexivity. }
  split; [|split; [exact Hlook | split; reflexivity]].
  intros [h|].
  - apply map_eq. intros k. rewrite !Hlook.
    destruct (String.eqb k "__proto__"); [reflexivity|].
    destruct (includes sensitiveHeaders (toLowerCase k)); [|reflexivity].
    destruct (h !! k); reflexivity.
  - apply map_eq. intros k. rewrite Hlook. cbn [sanitizeHeaders].
    rewrite lookup_empty.
    destruct (String.eqb k "__proto__"); [reflexivity|].
    destruct (includes sensitiveHeaders (toLowerCase k)); reflexivity.
Qed.

(** [Authorization] and [authorization] are both redacted, [Accept] is not. *)
Example sanitizeHeaders_case_insensitive :
  sanitizeHeaders
    (Some (<["Authorization" := JStr "Bearer a"]>
             (<["authorization" := JStr "Bearer b"]>
                (<["Accept" := JStr "text/plain"]> ∅))))
  = <["Authorization" := JStr "[REDACTED]"]>
      (<["authorization" := JStr "[REDACTED]"]>
         (<["Accept" := JStr "text/plain"]> ∅)).
Proof. vm_compute. reflexivity. Qed.

(** ** Running the methods *)

Lemma await_run {A} (c : Redis.Command) (effect : Redis.Store -> A * Redis.Store) w :
  await c effect w =
  if next_command_fails (redis w)
  then (Thrown "redis", {| this := this w; redis := Redis.received c (redis w) |})
  else (Returned (fst (effect (Redis.received c (redis w)))),
        {| this := this w; redis := snd (effect (Redis.received c (redis w))) |}).
Proof.
  unfold await, next_command_fails.
  destruct (Redis.failing _ _); [reflexivity|].
  destruct (effect _); reflexivity.
Qed.

Lemma store_up_next s : store_up s -> next_command_fails s = false.
Proof. intros H. apply H. Qed.

Lemma store_up_received c s : store_up s -> store_up (Redis.received c s).
Proof. intros H n. apply H. Qed.

Lemma stringify_config iso c :
  stringify (config_object iso c) = Some (config_blob iso c).
Proof. reflexivity. Qed.

Lemma saveConfigToRedis_run iso w :
  saveConfigToRedis iso w =
  let blob := config_blob iso (this w) in
  if next_command_fails (redis w)
  then (Returned false,
        {| this := this w;
           redis := Redis.received (Redis.Set_ config_key blob) (redis w) |})
  else (Returned true,
        {| this := this w; redis := after_set config_key blob (redis w) |}).
Proof.
  unfold saveConfigToRedis, try_catch, bind, read_this, json_text.
  cbn [fst snd]. rewrite stringify_config. unfold ret at 1.
  rewrite await_run. cbn [this redis].
  destruct (next_command_fails (redis w)); reflexivity.
Qed.

Lemma updateConfig_run iso n w :
  updateConfig iso (Some n) w =
  saveConfigToRedis iso
    {| this := valid_fields_applied n (this w); redis := redis w |}.
Proof.
  assert (Hsave : forall w0,
    try_catch (saved <- saveConfigToRedis iso ;; if saved then ret true else ret false)
              (ret false) w0 = saveConfigToRedis iso w0).
  { intros w0. unfold try_catch, bind. rewrite saveConfigToRedis_run. cbn zeta.
    destruct (next_command_fails (redis w0)); reflexivity. }
  destruct n as [e a b c]. destruct w as [[e0 a0 b0 c0] s].
  rewrite <- Hsave.
  unfold updateConfig, valid_fields_applied, try_catch, bind, ret, write_this,
    as_boolean, as_positive_number.
  destruct e, a as [| | |za| | |], b as [| | |zb| | |], c as [| | |zc| | |];
    cbn -[saveConfigToRedis Z.ltb Z.gtb]; rewrite ?Z.gtb_ltb;
    repeat match goal with |- context [0 <? ?z] => destruct (0 <? z) end;
    reflexivity.
Qed.

(** ** Configuration update *)

(** C6. [updateConfig] overwrites each field that is present and
    well-typed (a boolean for the switch, a number above 0 for a limit)
    and leaves every other field as it was, whatever the other fields of
    the argument are; it then sends the whole merged configuration to the
    store: one [set] under the configuration key, whose value is the JSON
    text of the object made of the four merged fields and [updatedAt];
    that text is what the store holds afterwards when the write went
    through, and [updateConfig] returns [true] exactly then. *)
Theorem updateConfig_applies_valid_fields_and_persists
    (iso : string) (n : NewConfig.t) (w : World) :
  let failed := next_command_fails (redis w) in
  let result := fst (updateConfig iso (Some n) w) in
  let w' := snd (updateConfig iso (Some n) w) in
  enableHistoryLogging (this w') =
    match NewConfig.enableHistoryLogging n with
    | JBool b => b
    | _ => enableHistoryLogging (this w)
    end
  /\ maxRecordsPerKey (this w') =
    match NewConfig.maxRecordsPerKey n with
    | JNum z => if 0 <? z then z else maxRecordsPerKey (this w)
    | _ => maxRecordsPerKey (this w)
    end
  /\ maxRequestBodySize (this w') =
    match NewConfig.maxRequestBodySize n with
    | JNum z => if 0 <? z then z else maxRequestBodySize (this w)
    | _ => maxRequestBodySize (this w)
    end
  /\ maxResponseBodySize (this w') =
    match NewConfig.maxResponseBodySize n with
    | JNum z => if 0 <? z then z else maxResponseBodySize (this w)
    | _ => maxResponseBodySize (this w)
    end
  /\ (exists text,
        stringify
          (JObj [("enableHistoryLogging", JBool (enableHistoryLogging (this w')));
                 ("maxRecordsPerKey", JNum (maxRecordsPerKey (this w')));
                 ("maxRequestBodySize", JNum (maxRequestBodySize (this w')));
                 ("maxResponseBodySize", JNum (maxResponseBodySize (this w')));
                 ("updatedAt", JStr iso)]) = Some text
        /\ config_key = "request_history_config"
        /\ Redis.issued (redis w') =
           (Redis.issued (redis w) ++ [Redis.Set_ "request_history_config" text])%list
        /\ Redis.blobs (redis w') !! "request_history_config" =
           (if failed then Redis.blobs (redis w) !! "request_history_config"
            else Some text))
  /\ result = Returned (negb failed).
Proof.
  cbn zeta. rewrite updateConfig_run, saveConfigToRedis_run. cbn zeta.
  cbn [this redis].
  destruct (next_command_fails (redis w)) eqn:Hfail;
    cbn [fst snd this redis negb];
    (split; [reflexivity|]); (split; [reflexivity|]); (split; [reflexivity|]);
    (split; [reflexivity|]); (split; [|reflexivity]);
    (eexists; split; [reflexivity|]); (split; [reflexivity|]);
    (split; [reflexivity|]).
  - reflexivity.
  - unfold after_set. cbn. apply lookup_insert_eq.
Qed.

(** [updateConfig({maxRecordsPerKey: -5, ...})] keeps [maxRecordsPerKey]
    and applies the valid fields of the same call. *)
Example updateConfig_skips_negative_limit :
  let w' := snd (updateConfig "2025-01-01T00:00:00.000Z" (Some sample_update)
                   (fresh_world never)) in
  this w' = {| enableHistoryLogging := false; maxRecordsPerKey := 1000;
               maxRequestBodySize := 2048; maxResponseBodySize := 10000 |}
  /\ fst (updateConfig "2025-01-01T00:00:00.000Z" (Some sample_update)
            (fresh_world never)) = Returned true.
Proof. vm_compute. split; reflexivity. Qed.

(** A [null] argument changes nothing, sends nothing and returns [false]. *)
Lemma updateConfig_null iso w : updateConfig iso None w = (Returned false, w).
Proof. reflexivity. Qed.

(** C10. When the write to the store fails, [updateConfig] returns
    [false], and the valid fields of the argument are nevertheless in the
    in-memory configuration: they were applied before the write was sent
    (the command carries them) and are not rolled back; the stored blob is
    the one from before. *)
Theorem updateConfig_not_rolled_back_when_persistence_fails
    (iso : string) (n : NewConfig.t) (w : World) :
  next_command_fails (redis w) = true ->
  fst (updateConfig iso (Some n) w) = Returned false
  /\ this (snd (updateConfig iso (Some n) w)) = valid_fields_applied n (this w)
  /\ Redis.issued (redis (snd (updateConfig iso (Some n) w))) =
     (Redis.issued (redis w)
      ++ [Redis.Set_ config_key
            (config_blob iso (valid_fields_applied n (this w)))])%list
  /\ Redis.blobs (redis (snd (updateConfig iso (Some n) w))) = Redis.blobs (redis w).
Proof.
  intros Hfail. rewrite updateConfig_run, saveConfigToRedis_run. cbn zeta.
  cbn [this redis]. rewrite Hfail. repeat split.
Qed.

Lemma updateConfig_not_rolled_back_witness :
  next_command_fails (redis (fresh_world always)) = true
  /\ fst (updateConfig "t" (Some sample_update) (fresh_world always)) = Returned false
  /\ this (snd (updateConfig "t" (Some sample_update) (fresh_world always))) =
     valid_fields_applied sample_update (this (fresh_world always))
  /\ Redis.issued (redis (snd (updateConfig "t" (Some sample_update) (fresh_world always)))) =
     (Redis.issued (redis (fresh_world always))
      ++ [Redis.Set_ config_key
            (config_blob "t" (valid_fields_applied sample_update
                                (this (fresh_world always))))])%list
  /\ Redis.blobs (redis (snd (updateConfig "t" (Some sample_update) (fresh_world always)))) =
     Redis.blobs (redis (fresh_world always)).
Proof.
  split; [reflexivity|].
  apply (updateConfig_not_rolled_back_when_persistence_fails
           "t" sample_update (fresh_world always)).
  reflexivity.
Defined.

(** The in-memory values after the failed write of the sample update. *)
Example updateConfig_failed_write_sample :
  this (snd (updateConfig "t" (Some sample_update) (fresh_world always))) =
  {| enableHistoryLogging := false; maxRecordsPerKey := 1000;
     maxRequestBodySize := 2048; maxResponseBodySize := 10000 |}.
Proof. reflexivity. Qed.

(** ** Configuration initialisation *)

Lemma loadConfigFromRedis_run parse w :
  loadConfigFromRedis parse w =
  (Returned
     (if next_command_fails (redis w) then None
      else match Redis.blobs (redis w) !! config_key with
           | Some b => if String.eqb b "" then None else parse b
           | None => None
           end),
   {| this := this w;
      redis := Redis.received (Redis.Get config_key) (redis w) |}).
Proof.
  unfold loadConfigFromRedis, try_catch, bind. rewrite await_run.
  destruct (next_command_fails (redis w)); [reflexivity|].
  cbn [fst snd Redis.get Redis.received Redis.blobs].
  destruct (Redis.blobs (redis w) !! config_key) as [b|]; cbn [str_falsy nullish];
    [|reflexivity].
  destruct (String.eqb b ""); [reflexivity|].
  destruct (parse b); reflexivity.
Qed.

Lemma initializeConfig_run parse iso w :
  initializeConfig parse iso w =
  let after_get := Redis.received (Redis.Get config_key) (redis w) in
  match fst (loadConfigFromRedis parse w) with
  | Returned (Some saved) =>
      (Returned tt,
       {| this := {|
            enableHistoryLogging :=
              nullish (SavedConfig.enableHistoryLogging saved) true;
            maxRecordsPerKey := nullish (SavedConfig.maxRecordsPerKey saved) 1000;
            maxRequestBodySize := nullish (SavedConfig.maxRequestBodySize saved) 5000;
            maxResponseBodySize :=
              nullish (SavedConfig.maxResponseBodySize saved) 10000 |};
          redis := after_get |})
  | _ =>
      (Returned tt,
       snd (saveConfigToRedis iso {| this := defaultConfig; redis := after_get |}))
  end.
Proof.
  unfold initializeConfig, try_catch, bind. rewrite loadConfigFromRedis_run.
  cbn [fst]. cbn zeta.
  set (o := if next_command_fails (redis w) then None else _).
  clearbody o. destruct o as [saved|].
  - reflexivity.
  - unfold write_this at 1. cbn [this redis].
    rewrite saveConfigToRedis_run. cbn zeta.
    destruct (next_command_fails _); reflexivity.
Qed.

(** Over an empty store whose read raises, the defaults are written to
    the store all the same (here the write succeeds). *)
Lemma initializeConfig_persists_defaults_after_failed_read :
  let w := fresh_world first_only in
  let w' := snd (initializeConfig (fun _ => None) "2025-01-01T00:00:00.000Z" w) in
  let blob := config_blob "2025-01-01T00:00:00.000Z" defaultConfig in
  next_command_fails (redis w) = true
  /\ this w' = defaultConfig
  /\ Redis.issued (redis w') = [Redis.Get config_key; Redis.Set_ config_key blob]
  /\ Redis.blobs (redis w') !! config_key = Some blob.
Proof. vm_compute. repeat split. Qed.

(** X26. The cases of [initializeConfig].  [loadConfigFromRedis] turns a
    read that raises (and a blob that does not parse) into [null], so
    [initializeConfig] handles it exactly as an absent blob: the defaults
    become the in-memory configuration and one write of the defaults is
    sent to the store.  Only a blob that is read and parsed is taken
    over, and then nothing is written. *)
Theorem initializeConfig_failed_read_handled_as_absent
    (parse : string -> option SavedConfig.t) (iso : string) (w : World) :
  let s := redis w in
  let w' := snd (initializeConfig parse iso w) in
  let defaults_set_and_written :=
    this w' = defaultConfig
    /\ exists text,
         stringify
           (JObj [("enableHistoryLogging", JBool true);
                  ("maxRecordsPerKey", JNum 1000);
                  ("maxRequestBodySize", JNum 5000);
                  ("maxResponseBodySize", JNum 10000);
                  ("updatedAt", JStr iso)]) = Some text
         /\ Redis.issued (redis w') =
            (Redis.issued s
             ++ [Redis.Get config_key; Redis.Set_ config_key text])%list in
  let taken_over saved :=
    this w' = {|
      enableHistoryLogging := nullish (SavedConfig.enableHistoryLogging saved) true;
      maxRecordsPerKey := nullish (SavedConfig.maxRecordsPerKey saved) 1000;
      maxRequestBodySize := nullish (SavedConfig.maxRequestBodySize saved) 5000;
      maxResponseBodySize := nullish (SavedConfig.maxResponseBodySize saved) 10000 |}
    /\ Redis.issued (redis w') = (Redis.issued s ++ [Redis.Get config_key])%list
    /\ Redis.blobs (redis w') = Redis.blobs s in
  fst (initializeConfig parse iso w) = Returned tt
  /\ if next_command_fails s then defaults_set_and_written
     else match Redis.blobs s !! config_key with
          | None => defaults_set_and_written
          | Some b =>
              if String.eqb b "" then defaults_set_and_written
              else match parse b with
                   | None => defaults_set_and_written
                   | Some saved => taken_over saved
                   end
          end.
Proof.
  cbn zeta. rewrite initializeConfig_run, loadConfigFromRedis_run. cbn zeta.
  cbn [fst].
  assert (Hdefault :
    this (snd (saveConfigToRedis iso
                 {| this := defaultConfig;
                    redis := Redis.received (Redis.Get config_key) (redis w) |}))
      = defaultConfig
    /\ exists text,
         stringify
           (JObj [("enableHistoryLogging", JBool true);
                  ("maxRecordsPerKey", JNum 1000);
                  ("maxRequestBodySize", JNum 5000);
                  ("maxResponseBodySize", JNum 10000);
                  ("updatedAt", JStr iso)]) = Some text
         /\ Redis.issued (redis (snd (saveConfigToRedis iso
                 {| this := defaultConfig;
                    redis := Redis.received (Redis.Get config_key) (redis w) |})))
            = (Redis.issued (redis w)
               ++ [Redis.Get config_key; Redis.Set_ config_key text])%list).
  { rewrite saveConfigToRedis_run. cbn zeta.
    split; [destruct (next_command_fails _); reflexivity|].
    eexists. split; [reflexivity|].
    destruct (next_command_fails _); cbn; rewrite <- app_assoc; reflexivity. }
  destruct (next_command_fails (redis w)); [split; [reflexivity | exact Hdefault]|].
  destruct (Redis.blobs (redis w) !! config_key) as [b|];
    [|split; [reflexivity | exact Hdefault]].
  destruct (String.eqb b ""); [split; [reflexivity | exact Hdefault]|].
  destruct (parse b) as [saved|]; [|split; [reflexivity | exact Hdefault]].
  cbn. repeat split.
Qed.

(** C3. A saved configuration does not survive one failed read.  The
    store holds the configuration that [updateConfig] saved; when the
    read of [initializeConfig] raises, [loadConfigFromRedis] swallows the
    error and answers [null], the [catch] of [initializeConfig], which
    would keep the defaults in memory only, is not reached, and the
    [else] branch writes the defaults to the store: the saved blob is
    replaced by the defaults, whatever [JSON.parse] would have made of
    it. *)
Theorem initializeConfig_failed_read_overwrites_saved_configuration
    (parse : string -> option SavedConfig.t) :
  let w := restarted_world in
  let w' := snd (initializeConfig parse "2025-01-02T00:00:00.000Z" w) in
  exists saved defaults,
    stringify
      (JObj [("enableHistoryLogging", JBool false);
             ("maxRecordsPerKey", JNum 1000);
             ("maxRequestBodySize", JNum 2048);
             ("maxResponseBodySize", JNum 10000);
             ("updatedAt", JStr "2025-01-01T00:00:00.000Z")]) = Some saved
    /\ stringify
      (JObj [("enableHistoryLogging", JBool true);
             ("maxRecordsPerKey", JNum 1000);
             ("maxRequestBodySize", JNum 5000);
             ("maxResponseBodySize", JNum 10000);
             ("updatedAt", JStr "2025-01-02T00:00:00.000Z")]) = Some defaults
    /\ Redis.blobs (redis w) !! config_key = Some saved
    /\ next_command_fails (redis w) = true
    /\ fst (initializeConfig parse "2025-01-02T00:00:00.000Z" w) = Returned tt
    /\ this w' = defaultConfig
    /\ Redis.issued (redis w') =
       [Redis.Set_ config_key saved; Redis.Get config_key;
        Redis.Set_ config_key defaults]
    /\ Redis.blobs (redis w') !! config_key = Some defaults
    /\ defaults <> saved.
Proof.
  do 2 eexists. split; [reflexivity|]. split; [reflexivity|].
  vm_compute. repeat split. discriminate.
Qed.

(** ** Retention *)

Lemma enforceRecordLimit_run key w :
  key <> "" ->
  store_up (redis w) ->
  enforceRecordLimit (Some key) w =
  let limit := maxRecordsPerKey (this w) in
  let count := Z.of_nat (length (Redis.byKey (redis w) !!! key)) in
  let counted := Redis.received (Redis.GetRequestHistoryCount key) (redis w) in
  (Returned tt,
   {| this := this w;
      redis :=
        if count >? limit + 100 then
          snd (Redis.removeOldestRequestHistory key (count - limit)
                 (Redis.received
                    (Redis.RemoveOldestRequestHistory key (count - limit)) counted))
        else counted |}).
Proof.
  intros Hkey Hup. unfold enforceRecordLimit.
  cbn [str_falsy nullish]. rewrite (proj2 (String.eqb_neq key "") Hkey).
  unfold try_catch, bind, read_this. rewrite await_run.
  rewrite (store_up_next _ Hup).
  cbn [fst snd Redis.getRequestHistoryCount this redis].
  change (Redis.byKey (Redis.received (Redis.GetRequestHistoryCount key) (redis w)))
    with (Redis.byKey (redis w)).
  destruct (_ >? _); [|reflexivity].
  rewrite await_run. cbn [this redis].
  rewrite (store_up_next _ (store_up_received _ _ Hup)). reflexivity.
Qed.

(** C2. With the store answering, a non-empty owning key and a positive
    [maxRecordsPerKey], the enforcer sends a removal exactly when the
    count it reads is above [maxRecordsPerKey + 100]; the removal is for
    [count - maxRecordsPerKey] records, the oldest ones, and leaves
    [maxRecordsPerKey] records to the key.  Otherwise it only reads the
    count. *)
Theorem enforceRecordLimit_trims_beyond_threshold (key : string) (w : World) :
  key <> "" ->
  0 < maxRecordsPerKey (this w) ->
  store_up (redis w) ->
  let limit := maxRecordsPerKey (this w) in
  let ids := Redis.byKey (redis w) !!! key in
  let count := Z.of_nat (length ids) in
  let excess := Z.to_nat (count - limit) in
  let w' := snd (enforceRecordLimit (Some key) w) in
  if count >? limit + 100 then
    Redis.issued (redis w') =
      (Redis.issued (redis w)
       ++ [Redis.GetRequestHistoryCount key;
           Redis.RemoveOldestRequestHistory key (count - limit)])%list
    /\ Redis.records (redis w') =
       foldr delete (Redis.records (redis w)) (take excess ids)
    /\ Redis.byKey (redis w') !!! key = drop excess ids
    /\ Z.of_nat (length (take excess ids)) = count - limit
    /\ Z.of_nat (length (Redis.byKey (redis w') !!! key)) = limit
  else
    Redis.issued (redis w') =
      (Redis.issued (redis w) ++ [Redis.GetRequestHistoryCount key])%list
    /\ Redis.records (redis w') = Redis.records (redis w)
    /\ Redis.byKey (redis w') = Redis.byKey (redis w).
Proof.
  intros Hkey Hpos Hup. cbn zeta.
  rewrite (enforceRecordLimit_run key w Hkey Hup). cbn zeta. cbn [snd redis].
  destruct (Z.gtb_spec (Z.of_nat (length (Redis.byKey (redis w) !!! key)))
              (maxRecordsPerKey (this w) + 100)) as [Hgt|Hle].
  - cbn [snd Redis.removeOldestRequestHistory Redis.received Redis.issued
         Redis.records Redis.byKey].
    rewrite lookup_total_insert_eq, length_take, length_drop, <- app_assoc.
    repeat split; lia.
  - repeat split.
Qed.

Lemma enforceRecordLimit_witness :
  let key := "key-1" in
  let w := crowded_world 1101 in
  let limit := maxRecordsPerKey (this w) in
  let ids := Redis.byKey (redis w) !!! key in
  let count := Z.of_nat (length ids) in
  let excess := Z.to_nat (count - limit) in
  let w' := snd (enforceRecordLimit (Some key) w) in
  if count >? limit + 100 then
    Redis.issued (redis w') =
      (Redis.issued (redis w)
       ++ [Redis.GetRequestHistoryCount key;
           Redis.RemoveOldestRequestHistory key (count - limit)])%list
    /\ Redis.records (redis w') =
       foldr delete (Redis.records (redis w)) (take excess ids)
    /\ Redis.byKey (redis w') !!! key = drop excess ids
    /\ Z.of_nat (length (take excess ids)) = count - limit
    /\ Z.of_nat (length (Redis.byKey (redis w') !!! key)) = limit
  else
    Redis.issued (redis w') =
      (Redis.issued (redis w) ++ [Redis.GetRequestHistoryCount key])%list
    /\ Redis.records (redis w') = Redis.records (redis w)
    /\ Redis.byKey (redis w') = Redis.byKey (redis w).
Proof.
  apply (enforceRecordLimit_trims_beyond_threshold "key-1" (crowded_world 1101)).
  - discriminate.
  - reflexivity.
  - intros n. reflexivity.
Defined.

(** With [maxRecordsPerKey = 1000]: at 1101 records the 101 oldest go and
    1000 stay, the first one kept being ["r101"]. *)
Example enforceRecordLimit_at_1101 :
  let w' := snd (enforceRecordLimit (Some "key-1") (crowded_world 1101)) in
  Redis.issued (redis w') =
    [Redis.GetRequestHistoryCount "key-1";
     Redis.RemoveOldestRequestHistory "key-1" 101]
  /\ length (Redis.byKey (redis w') !!! "key-1") = 1000%nat
  /\ size (Redis.records (redis w')) = 1000%nat
  /\ head (Redis.byKey (redis w') !!! "key-1") = Some "r101"
  /\ Redis.records (redis w') !! "r100" = None.
Proof. vm_compute. repeat split. Qed.

(** At 1099 records nothing is removed. *)
Example enforceRecordLimit_at_1099 :
  let w' := snd (enforceRecordLimit (Some "key-1") (crowded_world 1099)) in
  Redis.issued (redis w') = [Redis.GetRequestHistoryCount "key-1"]
  /\ length (Redis.byKey (redis w') !!! "key-1") = 1099%nat
  /\ size (Redis.records (redis w')) = 1099%nat.
Proof. vm_compute. repeat split. Qed.

(** ** Starting a request *)

Lemma json_text_run v w :
  truthy v = true -> json_text v w = (Returned (nullish (stringify v) ""), w).
Proof.
  intros Hv. unfold json_text.
  destruct (stringify_truthy v Hv) as [s ->]. reflexivity.
Qed.

Lemma json_length_run v w :
  truthy v = true -> json_length v w = (Returned (json_size v), w).
Proof.
  intros Hv. unfold json_length, bind. rewrite (json_text_run v w Hv). reflexivity.
Qed.

Lemma limitRequestBody_run body w :
  limitRequestBody body w =
  (Returned
     (if truthy body && (json_size body >? maxRequestBodySize (this w))
      then JObj (assign_prop "messages"
                   (if truthy (Js.get body "messages")
                    then truncated_messages
                    else Js.get body "messages")
                   (spread body))
      else body), w).
Proof.
  unfold limitRequestBody. destruct (truthy body) eqn:Hb; [|reflexivity].
  unfold bind. rewrite (json_length_run body w Hb). unfold read_this.
  cbn [andb]. destruct (_ >? _); reflexivity.
Qed.

Lemma enforceRecordLimit_skips k w :
  str_falsy k = true -> enforceRecordLimit k w = (Returned tt, w).
Proof. intros H. unfold enforceRecordLimit. rewrite H. reflexivity. Qed.

Lemma lookup_foldr_delete {A} (m : gmap string A) (gone : list string) (id : string) :
  id ∉ gone -> foldr delete m gone !! id = m !! id.
Proof.
  induction gone as [|g gone IH]; intros Hnot; [reflexivity|].
  cbn [foldr]. rewrite lookup_delete_ne.
  - apply IH. intros Hin. apply Hnot. right. exact Hin.
  - intros ->. apply Hnot. left.
Qed.

(** The enforcer never removes a record whose id is not among the oldest
    of its owner: with a positive limit, a record that was just appended
    (or is not listed at all) stays. *)
Lemma enforceRecordLimit_keeps k w id :
  store_up (redis w) ->
  0 < maxRecordsPerKey (this w) ->
  (forall key, k = Some key ->
     exists older, (id ∉ older) /\
       (Redis.byKey (redis w) !!! key = older
        \/ Redis.byKey (redis w) !!! key = (older ++ [id])%list)) ->
  fst (enforceRecordLimit k w) = Returned tt
  /\ Redis.records (redis (snd (enforceRecordLimit k w))) !! id
     = Redis.records (redis w) !! id
  /\ store_up (redis (snd (enforceRecordLimit k w)))
  /\ this (snd (enforceRecordLimit k w)) = this w.
Proof.
  intros Hup Hpos Hids.
  destruct (str_falsy k) eqn:Hk.
  { rewrite (enforceRecordLimit_skips k w Hk). repeat split; assumption. }
  destruct k as [key|]; [|discriminate Hk].
  cbn [str_falsy] in Hk. apply String.eqb_neq in Hk.
  rewrite (enforceRecordLimit_run key w Hk Hup). cbn zeta. cbn [fst snd redis this].
  destruct (Hids key eq_refl) as (older & Hnot & Hshape).
  destruct (Z.gtb_spec (Z.of_nat (length (Redis.byKey (redis w) !!! key)))
              (maxRecordsPerKey (this w) + 100)) as [Hgt|Hle].
  - cbn [snd Redis.removeOldestRequestHistory Redis.received Redis.records
         Redis.byKey Redis.failing].
    repeat split; try assumption.
    apply lookup_foldr_delete.
    destruct Hshape as [-> | ->].
    + intros Hin. apply Hnot. eapply subseteq_take; exact Hin.
    + rewrite length_app in *. cbn [length] in *.
      rewrite take_app_le by lia.
      intros Hin. apply Hnot. eapply subseteq_take; exact Hin.
  - repeat split; assumption.
Qed.

Lemma startRequest_run uuid iso now rd w :
  enableHistoryLogging (this w) = true ->
  next_command_fails (redis w) = false ->
  startRequest uuid iso now rd w =
  let r := historyRecord uuid iso now rd
             (if truthy (RequestData.requestBody rd)
                 && (json_size (RequestData.requestBody rd)
                     >? maxRequestBodySize (this w))
              then JObj (assign_prop "messages"
                           (if truthy (Js.get (RequestData.requestBody rd) "messages")
                            then truncated_messages
                            else Js.get (RequestData.requestBody rd) "messages")
                           (spread (RequestData.requestBody rd)))
              else RequestData.requestBody rd) in
  let saved := {| this := this w;
                  redis := snd (Redis.saveRequestHistory r
                                  (Redis.received (Redis.SaveRequestHistory r)
                                     (redis w))) |} in
  match enforceRecordLimit (RequestData.apiKeyId rd) saved with
  | (Returned _, w') => (Returned (Some uuid), w')
  | (Thrown _, w') => (Returned None, w')
  end.
Proof.
  intros Hon Hok. unfold startRequest, bind at 1, read_this. rewrite Hon.
  cbn [negb]. unfold try_catch, bind. rewrite limitRequestBody_run.
  rewrite await_run, Hok. cbn [fst snd this redis]. cbn zeta.
  destruct (enforceRecordLimit _ _) as [[[]|e] w']; reflexivity.
Qed.

Lemma getRequestDetails_run id w :
  next_command_fails (redis w) = false ->
  getRequestDetails id w =
  (Returned (Redis.records (redis w) !! id),
   {| this := this w;
      redis := Redis.received (Redis.GetRequestHistory id) (redis w) |}).
Proof.
  intros Hok. unfold getRequestDetails, try_catch. rewrite await_run, Hok.
  reflexivity.
Qed.

(** With logging on, the store answering, a positive record limit and a
    fresh id, [startRequest] returns the id, and the record it built is
    the one the store holds under that id afterwards. *)
Lemma startRequest_stores uuid iso now rd w :
  enableHistoryLogging (this w) = true ->
  store_up (redis w) ->
  0 < maxRecordsPerKey (this w) ->
  (forall key, RequestData.apiKeyId rd = Some key ->
     uuid ∉ Redis.byKey (redis w) !!! key) ->
  let body := RequestData.requestBody rd in
  let w' := snd (startRequest uuid iso now rd w) in
  fst (startRequest uuid iso now rd w) = Returned (Some uuid)
  /\ Redis.records (redis w') !! uuid =
     Some (historyRecord uuid iso now rd
             (if truthy body && (json_size body >? maxRequestBodySize (this w))
              then JObj (assign_prop "messages"
                           (if truthy (Js.get body "messages")
                            then truncated_messages
                            else Js.get body "messages")
                           (spread body))
              else body))
  /\ store_up (redis w')
  /\ this w' = this w.
Proof.
  intros Hon Hup Hpos Hfresh. cbn zeta.
  rewrite (startRequest_run uuid iso now rd w Hon (store_up_next _ Hup)).
  cbn zeta.
  match goal with
  | |- context [enforceRecordLimit ?k ?saved] =>
      destruct (enforceRecordLimit_keeps k saved uuid) as (Hret & Hrec & Hup' & Hthis)
  end.
  - intros n. apply Hup.
  - exact Hpos.
  - intros key Hkey. exists (Redis.byKey (redis w) !!! key).
    split; [apply Hfresh, Hkey|].
    cbn [redis Redis.saveRequestHistory snd Redis.byKey Redis.received
         Redis.records historyRecord HistoryRecord.requestId HistoryRecord.apiKeyId].
    rewrite Hkey.
    destruct (Redis.records (redis w) !! uuid); [left; reflexivity|].
    right. apply lookup_total_insert_eq.
  - destruct (enforceRecordLimit _ _) as [[[]|e] w'] eqn:Hrun;
      cbn [fst snd] in *; [|discriminate Hret].
    repeat split; try assumption.
    rewrite Hrec.
    cbn [redis Redis.saveRequestHistory snd Redis.records Redis.received
         historyRecord HistoryRecord.requestId].
    apply lookup_insert_eq.
Qed.

(** *** Properties of objects *)

Lemma lookup_assign_eq k v ps : lookup_prop k (assign_prop k v ps) = Some v.
Proof.
  induction ps as [|[k' v'] ps IH]; cbn [assign_prop lookup_prop].
  - rewrite String.eqb_refl. reflexivity.
  - destruct (String.eqb k' k) eqn:E; cbn [lookup_prop].
    + rewrite String.eqb_refl. reflexivity.
    + rewrite E. exact IH.
Qed.

Lemma lookup_assign_ne k k' v ps :
  k' <> k -> lookup_prop k' (assign_prop k v ps) = lookup_prop k' ps.
Proof.
  intros Hne. induction ps as [|[k0 v0] ps IH]; cbn [assign_prop lookup_prop].
  - rewrite (proj2 (String.eqb_neq k k')) by congruence. reflexivity.
  - destruct (String.eqb k0 k) eqn:E; cbn [lookup_prop].
    + apply String.eqb_eq in E. subst k0.
      rewrite (proj2 (String.eqb_neq k k')) by congruence. reflexivity.
    + rewrite IH. reflexivity.
Qed.

Lemma assign_prop_present k v ps :
  lookup_prop k ps = Some v -> assign_prop k v ps = ps.
Proof.
  induction ps as [|[k' v'] ps IH]; cbn [assign_prop lookup_prop]; [discriminate|].
  destruct (String.eqb k' k) eqn:E.
  - apply String.eqb_eq in E. subst k'. intros [= ->]. reflexivity.
  - intros H. rewrite (IH H). reflexivity.
Qed.

Lemma assign_prop_absent k v ps :
  lookup_prop k ps = None -> assign_prop k v ps = (ps ++ [(k, v)])%list.
Proof.
  induction ps as [|[k' v'] ps IH]; cbn [assign_prop lookup_prop]; [reflexivity|].
  destruct (String.eqb k' k); [discriminate|].
  intros H. rewrite (IH H). reflexivity.
Qed.

Lemma assign_prop_keys k v ps :
  is_Some (lookup_prop k ps) ->
  List.map fst (assign_prop k v ps) = List.map fst ps.
Proof.
  induction ps as [|[k' v'] ps IH]; cbn [assign_prop lookup_prop List.map fst].
  - intros [x Hx]. discriminate Hx.
  - destruct (String.eqb k' k) eqn:E; cbn [List.map fst].
    + apply String.eqb_eq in E. subst k'. reflexivity.
    + intros H. rewrite (IH H). reflexivity.
Qed.

Lemma stringify_object ps :
  stringify (JObj ps) = Some ("{" ++ join "," (members ps) ++ "}").
Proof. reflexivity. Qed.

Lemma members_undefined_last k ps :
  members (ps ++ [(k, JUndefined)]) = members ps.
Proof.
  induction ps as [|[k' v'] ps IH]; cbn [members app]; [reflexivity|].
  rewrite IH. reflexivity.
Qed.

Lemma truthy_get_object v k :
  truthy (Js.get v k) = true -> exists ps x, v = JObj ps /\ lookup_prop k ps = Some x.
Proof.
  destruct v; cbn [Js.get truthy]; try discriminate.
  destruct (lookup_prop k props) as [x|] eqn:E; cbn [nullish truthy]; [|discriminate].
  intros _. exists props, x. split; [reflexivity | exact E].
Qed.

(** *** Truncation of the request body *)

(** Where C7 fails: the body is larger than the limit but has no
    [messages], and what is stored carries no truncation marker. *)
Lemma startRequest_large_body_without_messages_not_marked :
  let body := JObj prompt_body in
  let w' := snd (startRequest "id-1" "2025-01-01T00:00:00.000Z" 1000
                   (sample_request body) tight_world) in
  json_size body > maxRequestBodySize (this tight_world)
  /\ exists r,
       fst (getRequestDetails "id-1" w') = Returned (Some r)
       /\ HistoryRecord.requestBody r =
          JObj (prompt_body ++ [("messages", JUndefined)])%list
       /\ Js.get (HistoryRecord.requestBody r) "messages" <> truncated_messages.
Proof.
  vm_compute. split; [reflexivity|].
  eexists. split; [reflexivity|]. split; [reflexivity | discriminate].
Qed.

(** C7, amended. When the serialized body is larger than
    [maxRequestBodySize] and its [messages] field is truthy, the stored
    body has the truncation marker as [messages] and every other field as
    supplied, in the same order; a body within the limit is stored as
    supplied. *)
Theorem startRequest_truncates_truthy_messages
    (uuid iso : string) (now : Z) (rd : RequestData.t) (w : World) :
  enableHistoryLogging (this w) = true ->
  store_up (redis w) ->
  0 < maxRecordsPerKey (this w) ->
  (forall key, RequestData.apiKeyId rd = Some key ->
     uuid ∉ Redis.byKey (redis w) !!! key) ->
  let body := RequestData.requestBody rd in
  let w' := snd (startRequest uuid iso now rd w) in
  exists r,
    fst (getRequestDetails uuid w') = Returned (Some r)
    /\ (json_size body > maxRequestBodySize (this w) ->
        truthy (Js.get body "messages") = true ->
        HistoryRecord.requestBody r =
          JObj (assign_prop "messages" truncated_messages (spread body))
        /\ Js.get (HistoryRecord.requestBody r) "messages" = truncated_messages
        /\ (forall k, k <> "messages" ->
              Js.get (HistoryRecord.requestBody r) k = Js.get body k)
        /\ List.map fst (spread (HistoryRecord.requestBody r))
           = List.map fst (spread body))
    /\ (json_size body <= maxRequestBodySize (this w) ->
        HistoryRecord.requestBody r = body).
Proof.
  intros Hon Hup Hpos Hfresh. cbn zeta.
  destruct (startRequest_stores uuid iso now rd w Hon Hup Hpos Hfresh)
    as (_ & Hrec & Hup' & _). cbn zeta in Hrec.
  eexists. split.
  { rewrite (getRequestDetails_run _ _ (store_up_next _ Hup')), Hrec. reflexivity. }
  cbn [historyRecord HistoryRecord.requestBody]. split.
  - intros Hbig Hmsg.
    destruct (truthy_get_object _ _ Hmsg) as (ps & x & Hbody & Hx).
    rewrite Hbody in *. cbn [truthy andb spread].
    rewrite (proj2 (Z.gtb_lt _ _)) by lia. rewrite Hmsg.
    cbn [Js.get spread]. split; [reflexivity|]. split; [|split].
    + rewrite lookup_assign_eq. reflexivity.
    + intros k Hk. rewrite lookup_assign_ne by exact Hk. reflexivity.
    + apply assign_prop_keys. rewrite Hx. eauto.
  - intros Hsmall.
    destruct (Z.gtb_spec (json_size (RequestData.requestBody rd))
                (maxRequestBodySize (this w))) as [Hgt|_]; [lia|].
    rewrite andb_false_r. reflexivity.
Qed.

Lemma startRequest_truncates_witness :
  exists r,
    fst (getRequestDetails "id-1"
           (snd (startRequest "id-1" "2025-01-01T00:00:00.000Z" 1000
                   (sample_request (JObj chat_body)) tight_world)))
    = Returned (Some r)
    /\ HistoryRecord.requestBody r =
       JObj [("model", JStr "claude-3");
             ("messages", JStr "[TRUNCATED - Large Messages]");
             ("max_tokens", JNum 256)].
Proof.
  destruct (startRequest_truncates_truthy_messages
              "id-1" "2025-01-01T00:00:00.000Z" 1000
              (sample_request (JObj chat_body)) tight_world)
    as (r & Hget & Hbig & _).
  - reflexivity.
  - intros n. reflexivity.
  - reflexivity.
  - intros key _.
    change (Redis.byKey (redis tight_world)) with (∅ : gmap string (list string)).
    rewrite lookup_total_empty. apply not_elem_of_nil.
  - exists r. split; [exact Hget|].
    destruct Hbig as (Hbody & _); [reflexivity | reflexivity | exact Hbody].
Defined.

(** *** A large body without a truthy [messages] field *)

(** Where C9 fails: a body that is an array.  It is larger
    than the limit and has no [messages] field, and what is stored is not
    the array but the object [{...requestBody, messages: undefined}],
    whose properties are the indices of the array; its JSON text is that
    of an object, not that of the array. *)
Lemma startRequest_stores_large_array_body_as_object :
  let rd := sample_request list_body in
  let w' := snd (startRequest "id-1" "2025-01-01T00:00:00.000Z" 1000 rd
                   tight_world) in
  enableHistoryLogging (this tight_world) = true
  /\ json_size list_body > maxRequestBodySize (this tight_world)
  /\ truthy (Js.get list_body "messages") = false
  /\ exists r,
       fst (getRequestDetails "id-1" w') = Returned (Some r)
       /\ HistoryRecord.requestBody r =
          JObj [("0", JStr "a list of strings that is longer than forty characters");
                ("messages", JUndefined)]
       /\ HistoryRecord.requestBody r <> list_body
       /\ stringify (HistoryRecord.requestBody r) <> stringify list_body.
Proof.
  vm_compute. split; [reflexivity|]. split; [reflexivity|].
  split; [reflexivity|].
  eexists. split; [reflexivity|]. split; [reflexivity|].
  split; discriminate.
Qed.

(** C9, amended. When the body is an object (not an array or a string),
    its serialized form is larger than [maxRequestBodySize] and it has no
    truthy [messages] field, nothing is truncated: the stored body is the
    object [{...requestBody, messages: requestBody.messages}], which is
    the supplied body itself when it has a [messages] property and the
    supplied body with [messages: undefined] after its properties when it
    has none; either way every property reads as in the supplied body and
    the JSON text is the same. *)
Theorem startRequest_keeps_large_body_without_truthy_messages
    (uuid iso : string) (now : Z) (rd : RequestData.t) (w : World)
    (props : list (string * JsVal)) :
  enableHistoryLogging (this w) = true ->
  store_up (redis w) ->
  0 < maxRecordsPerKey (this w) ->
  (forall key, RequestData.apiKeyId rd = Some key ->
     uuid ∉ Redis.byKey (redis w) !!! key) ->
  RequestData.requestBody rd = JObj props ->
  json_size (JObj props) > maxRequestBodySize (this w) ->
  truthy (Js.get (JObj props) "messages") = false ->
  let w' := snd (startRequest uuid iso now rd w) in
  exists r,
    fst (getRequestDetails uuid w') = Returned (Some r)
    /\ HistoryRecord.requestBody r =
       match lookup_prop "messages" props with
       | Some _ => JObj props
       | None => JObj (props ++ [("messages", JUndefined)])%list
       end
    /\ (forall k, Js.get (HistoryRecord.requestBody r) k = Js.get (JObj props) k)
    /\ stringify (HistoryRecord.requestBody r) = stringify (JObj props).
Proof.
  intros Hon Hup Hpos Hfresh Hbody Hbig Hmsg. cbn zeta.
  destruct (startRequest_stores uuid iso now rd w Hon Hup Hpos Hfresh)
    as (_ & Hrec & Hup' & _). cbn zeta in Hrec.
  rewrite Hbody in Hrec. rewrite Hmsg in Hrec.
  cbn [truthy andb spread] in Hrec.
  rewrite (proj2 (Z.gtb_lt _ _)) in Hrec by lia.
  eexists. split.
  { rewrite (getRequestDetails_run _ _ (store_up_next _ Hup')), Hrec. reflexivity. }
  cbn [historyRecord HistoryRecord.requestBody Js.get].
  destruct (lookup_prop "messages" props) as [x|] eqn:Hx; cbn [nullish].
  - rewrite (assign_prop_present _ _ _ Hx). repeat split.
  - rewrite (assign_prop_absent _ _ _ Hx). split; [reflexivity|]. split.
    + intros k. cbn [Js.get].
      rewrite <- (assign_prop_absent "messages" JUndefined props Hx).
      destruct (String.eqb_spec k "messages") as [->|Hk].
      * rewrite lookup_assign_eq, Hx. reflexivity.
      * rewrite lookup_assign_ne by exact Hk. reflexivity.
    + rewrite !stringify_object, members_undefined_last. reflexivity.
Qed.

Lemma startRequest_keeps_large_body_witness :
  exists r,
    fst (getRequestDetails "id-1"
           (snd (startRequest "id-1" "2025-01-01T00:00:00.000Z" 1000
                   (sample_request (JObj prompt_body)) tight_world)))
    = Returned (Some r)
    /\ HistoryRecord.requestBody r =
       JObj (prompt_body ++ [("messages", JUndefined)])%list
    /\ stringify (HistoryRecord.requestBody r) = stringify (JObj prompt_body).
Proof.
  destruct (startRequest_keeps_large_body_without_truthy_messages
              "id-1" "2025-01-01T00:00:00.000Z" 1000
              (sample_request (JObj prompt_body)) tight_world prompt_body)
    as (r & Hget & Hbody & _ & Htext).
  - reflexivity.
  - intros n. reflexivity.
  - reflexivity.
  - intros key _.
    change (Redis.byKey (redis tight_world)) with (∅ : gmap string (list string)).
    rewrite lookup_total_empty. apply not_elem_of_nil.
  - reflexivity.
  - reflexivity.
  - reflexivity.
  - exists r. split; [exact Hget|]. split; [exact Hbody | exact Htext].
Defined.

(** ** Completing and failing a request *)

Lemma limitResponseBody_run body w :
  limitResponseBody body w =
  (Returned
     (if truthy body && (json_size body >? maxResponseBodySize (this w))
      then JObj [("type", JStr "truncated");
                 ("originalLength", JNum (json_size body));
                 ("preview",
                  JStr (Js.substring (nullish (stringify body) "") 0 1000 ++ "..."))]
      else body), w).
Proof.
  unfold limitResponseBody. destruct (truthy body) eqn:Hb; [|reflexivity].
  unfold bind. rewrite (json_length_run body w Hb). unfold read_this.
  cbn [andb]. destruct (_ >? _); [|reflexivity].
  rewrite (json_length_run body w Hb), (json_text_run body w Hb). reflexivity.
Qed.

Lemma saved_then_fetched r s :
  Redis.records (snd (Redis.saveRequestHistory r s)) !! HistoryRecord.requestId r
  = Some r.
Proof. cbn. apply lookup_insert_eq. Qed.

Lemma completeRequest_run now id resp w existing :
  enableHistoryLogging (this w) = true ->
  id <> "" ->
  store_up (redis w) ->
  Redis.records (redis w) !! id = Some existing ->
  completeRequest now (Some id) resp w =
  let body := ResponseData.responseBody resp in
  let updated :=
    completedRecord existing (Some (now - HistoryRecord.startTime existing))
      (if truthy body && (json_size body >? maxResponseBodySize (this w))
       then JObj [("type", JStr "truncated");
                  ("originalLength", JNum (json_size body));
                  ("preview",
                   JStr (Js.substring (nullish (stringify body) "") 0 1000 ++ "..."))]
       else body)
      resp now in
  (Returned tt,
   {| this := this w;
      redis :=
        snd (Redis.saveRequestHistory updated
               (Redis.received (Redis.SaveRequestHistory updated)
                  (Redis.received (Redis.GetRequestHistory id) (redis w)))) |}).
Proof.
  intros Hon Hid Hup Hrec. unfold completeRequest, bind at 1, read_this.
  rewrite Hon. cbn [negb orb str_falsy nullish].
  rewrite (proj2 (String.eqb_neq id "") Hid).
  unfold try_catch, bind. rewrite await_run, (store_up_next _ Hup).
  cbn [fst snd Redis.getRequestHistory].
  change (Redis.records (Redis.received (Redis.GetRequestHistory id) (redis w)))
    with (Redis.records (redis w)).
  rewrite Hrec, limitResponseBody_run, elapsed_since_start. cbn [this redis].
  rewrite await_run. cbn [this redis].
  rewrite (store_up_next _ (store_up_received _ _ Hup)). reflexivity.
Qed.

Lemma failRequest_run now id err w existing :
  enableHistoryLogging (this w) = true ->
  id <> "" ->
  store_up (redis w) ->
  Redis.records (redis w) !! id = Some existing ->
  failRequest now (Some id) err w =
  let updated :=
    failedRecord existing (Some (now - HistoryRecord.startTime existing)) err now in
  (Returned tt,
   {| this := this w;
      redis :=
        snd (Redis.saveRequestHistory updated
               (Redis.received (Redis.SaveRequestHistory updated)
                  (Redis.received (Redis.GetRequestHistory id) (redis w)))) |}).
Proof.
  intros Hon Hid Hup Hrec. unfold failRequest, bind at 1, read_this.
  rewrite Hon. cbn [negb orb str_falsy nullish].
  rewrite (proj2 (String.eqb_neq id "") Hid).
  unfold try_catch, bind. rewrite await_run, (store_up_next _ Hup).
  cbn [fst snd Redis.getRequestHistory].
  change (Redis.records (Redis.received (Redis.GetRequestHistory id) (redis w)))
    with (Redis.records (redis w)).
  rewrite Hrec, elapsed_since_start. cbn [this redis].
  rewrite await_run. cbn [this redis].
  rewrite (store_up_next _ (store_up_received _ _ Hup)). reflexivity.
Qed.

(** What [getRequestDetails] returns after a record was saved under the
    id it carries. *)
Lemma fetched_after_save id updated s (c : Config) :
  store_up s ->
  HistoryRecord.requestId updated = id ->
  fst (getRequestDetails id
         {| this := c;
            redis := snd (Redis.saveRequestHistory updated
                            (Redis.received (Redis.SaveRequestHistory updated) s)) |})
  = Returned (Some updated).
Proof.
  intros Hup Hid. rewrite getRequestDetails_run.
  - cbn [fst this redis]. rewrite <- Hid. rewrite saved_then_fetched. reflexivity.
  - apply store_up_next. intros n. apply Hup.
Qed.

(** C1. With logging on and the store answering, completing a request
    whose record exists (under the id it carries, as [startRequest] stores
    it) makes [getRequestDetails] return that record with status
    [success], [endTime] the time of completion, [duration] the difference
    between [endTime] and the stored [startTime], every token counter the
    supplied count or 0 when it is missing, and [totalTokens] their sum. *)
Theorem completeRequest_then_get_success
    (now : Z) (id : string) (resp : ResponseData.t) (w : World)
    (existing : HistoryRecord.t) :
  enableHistoryLogging (this w) = true ->
  id <> "" ->
  store_up (redis w) ->
  Redis.records (redis w) !! id = Some existing ->
  HistoryRecord.requestId existing = id ->
  let w' := snd (completeRequest now (Some id) resp w) in
  exists r,
    fst (getRequestDetails id w') = Returned (Some r)
    /\ HistoryRecord.status r = success
    /\ HistoryRecord.startTime r = HistoryRecord.startTime existing
    /\ HistoryRecord.endTime r = Some now
    /\ HistoryRecord.duration r = Some (now - HistoryRecord.startTime existing)
    /\ HistoryRecord.inputTokens r = Some (default 0 (ResponseData.inputTokens resp))
    /\ HistoryRecord.outputTokens r = Some (default 0 (ResponseData.outputTokens resp))
    /\ HistoryRecord.cacheCreateTokens r =
       Some (default 0 (ResponseData.cacheCreateTokens resp))
    /\ HistoryRecord.cacheReadTokens r =
       Some (default 0 (ResponseData.cacheReadTokens resp))
    /\ HistoryRecord.totalTokens r =
       Some (default 0 (ResponseData.inputTokens resp)
             + default 0 (ResponseData.outputTokens resp)
             + default 0 (ResponseData.cacheCreateTokens resp)
             + default 0 (ResponseData.cacheReadTokens resp)).
Proof.
  intros Hon Hid Hup Hrec Hown. cbn zeta.
  rewrite (completeRequest_run now id resp w existing Hon Hid Hup Hrec).
  cbn zeta. cbn [snd]. eexists. split.
  { apply fetched_after_save; [|exact Hown].
    apply store_up_received, Hup. }
  cbn [completedRecord HistoryRecord.status HistoryRecord.startTime
       HistoryRecord.endTime HistoryRecord.duration HistoryRecord.inputTokens
       HistoryRecord.outputTokens HistoryRecord.cacheCreateTokens
       HistoryRecord.cacheReadTokens HistoryRecord.totalTokens].
  rewrite !num_or_zero. repeat split.
Qed.

Lemma completeRequest_then_get_witness :
  exists r,
    fst (getRequestDetails "id-1"
           (snd (completeRequest 1500 (Some "id-1")
                   (sample_response (JStr "ok")) started_world)))
    = Returned (Some r)
    /\ HistoryRecord.status r = success
    /\ HistoryRecord.duration r = Some 500
    /\ HistoryRecord.totalTokens r = Some 42.
Proof.
  destruct (completeRequest_then_get_success 1500 "id-1"
              (sample_response (JStr "ok")) started_world
              (historyRecord "id-1" "2025-01-01T00:00:00.000Z" 1000
                 (sample_request (JObj chat_body))
                 (JObj (assign_prop "messages" truncated_messages chat_body))))
    as (r & Hget & Hstatus & _ & _ & Hduration & _ & _ & _ & _ & Htotal).
  - reflexivity.
  - discriminate.
  - intros n. reflexivity.
  - vm_compute. reflexivity.
  - reflexivity.
  - exists r. repeat split; assumption.
Defined.

(** Where C5 fails: a status code and a message that are
    supplied are not always the ones stored.  For [{ error: '',
    statusCode: 0 }] the record that [getRequestDetails] returns has
    [statusCode] 500 and [error] ["Unknown error"], as [||] takes the
    default for every falsy value. *)
Lemma failRequest_replaces_supplied_zero_and_empty_message :
  let w' := snd (failRequest 1750 (Some "id-1") zero_error started_world) in
  ErrorData.statusCode zero_error = Some 0
  /\ ErrorData.error zero_error = Some EmptyString
  /\ exists r,
       fst (getRequestDetails "id-1" w') = Returned (Some r)
       /\ HistoryRecord.status r = error
       /\ HistoryRecord.statusCode r = Some 500
       /\ HistoryRecord.error r = Some "Unknown error"
       /\ HistoryRecord.statusCode r <> ErrorData.statusCode zero_error
       /\ HistoryRecord.error r <> ErrorData.error zero_error.
Proof.
  vm_compute. split; [reflexivity|]. split; [reflexivity|].
  eexists. split; [reflexivity|]. repeat split; discriminate.
Qed.

(** C5, amended. With logging on and the store answering, failing a
    request whose record exists makes [getRequestDetails] return that
    record with status [error], with [statusCode] the supplied code when
    one is supplied and is not 0, and 500 otherwise, and with [error] the
    supplied message when one is supplied and is not empty, and
    ["Unknown error"] otherwise. *)
Theorem failRequest_then_get_error
    (now : Z) (id : string) (err : ErrorData.t) (w : World)
    (existing : HistoryRecord.t) :
  enableHistoryLogging (this w) = true ->
  id <> "" ->
  store_up (redis w) ->
  Redis.records (redis w) !! id = Some existing ->
  HistoryRecord.requestId existing = id ->
  let w' := snd (failRequest now (Some id) err w) in
  exists r,
    fst (getRequestDetails id w') = Returned (Some r)
    /\ HistoryRecord.status r = error
    /\ HistoryRecord.statusCode r =
       Some (match ErrorData.statusCode err with
             | Some code => if code =? 0 then 500 else code
             | None => 500
             end)
    /\ HistoryRecord.error r =
       Some (match ErrorData.error err with
             | Some message => if String.eqb message "" then "Unknown error" else message
             | None => "Unknown error"
             end)
    /\ HistoryRecord.endTime r = Some now
    /\ HistoryRecord.duration r = Some (now - HistoryRecord.startTime existing).
Proof.
  intros Hon Hid Hup Hrec Hown. cbn zeta.
  rewrite (failRequest_run now id err w existing Hon Hid Hup Hrec).
  cbn zeta. cbn [snd]. eexists. split.
  { apply fetched_after_save; [|exact Hown].
    apply store_up_received, Hup. }
  repeat split.
Qed.

Lemma failRequest_then_get_witness :
  exists r,
    fst (getRequestDetails "id-1"
           (snd (failRequest 1750 (Some "id-1") bare_error started_world)))
    = Returned (Some r)
    /\ HistoryRecord.status r = error
    /\ HistoryRecord.statusCode r = Some 500
    /\ HistoryRecord.error r = Some "Unknown error".
Proof.
  destruct (failRequest_then_get_error 1750 "id-1" bare_error started_world
              (historyRecord "id-1" "2025-01-01T00:00:00.000Z" 1000
                 (sample_request (JObj chat_body))
                 (JObj (assign_prop "messages" truncated_messages chat_body))))
    as (r & Hget & Hstatus & Hcode & Herror & _).
  - reflexivity.
  - discriminate.
  - intros n. reflexivity.
  - vm_compute. reflexivity.
  - reflexivity.
  - exists r. repeat split; assumption.
Defined.

(** A supplied code and message are stored as they are. *)
Example failRequest_supplied_code_and_message :
  (fun r => (HistoryRecord.status r, HistoryRecord.statusCode r,
             HistoryRecord.error r, HistoryRecord.duration r))
    <$> Redis.records
          (redis (snd (failRequest 1750 (Some "id-1") overloaded_error
                         started_world))) !! "id-1"
  = Some (error, Some 529, Some "overloaded", Some 750).
Proof. vm_compute. reflexivity. Qed.

(** *** Truncation of the response body *)

(** Where C8 fails: with [maxResponseBodySize = 1] the empty string, whose
    JSON text has two characters, is stored as it is. *)
Lemma completeRequest_large_falsy_body_not_summarised :
  let w' := snd (completeRequest 1500 (Some "id-1") (sample_response (JStr ""))
                   started_tightest_world) in
  json_size (JStr "") > maxResponseBodySize (this started_tightest_world)
  /\ exists r,
       fst (getRequestDetails "id-1" w') = Returned (Some r)
       /\ HistoryRecord.status r = success
       /\ HistoryRecord.responseBody r = JStr "".
Proof.
  vm_compute. split; [reflexivity|].
  eexists. split; [reflexivity|]. split; reflexivity.
Qed.

(** C8, amended. When the response body is truthy and its serialized
    size is above [maxResponseBodySize], what is stored is the summary
    [{type: "truncated", originalLength, preview}], where [originalLength]
    is the length of the JSON text of the body and [preview] its first
    1000 characters followed by three dots, hence of length 1003 at most;
    a body within the limit, and a falsy body, are stored as supplied. *)
Theorem completeRequest_summarises_large_truthy_body
    (now : Z) (id : string) (resp : ResponseData.t) (w : World)
    (existing : HistoryRecord.t) :
  enableHistoryLogging (this w) = true ->
  id <> "" ->
  store_up (redis w) ->
  Redis.records (redis w) !! id = Some existing ->
  HistoryRecord.requestId existing = id ->
  let body := ResponseData.responseBody resp in
  let w' := snd (completeRequest now (Some id) resp w) in
  exists r,
    fst (getRequestDetails id w') = Returned (Some r)
    /\ (truthy body = true ->
        json_size body > maxResponseBodySize (this w) ->
        exists text,
          stringify body = Some text
          /\ HistoryRecord.responseBody r =
             JObj [("type", JStr "truncated");
                   ("originalLength", JNum (Z.of_nat (String.length text)));
                   ("preview", JStr (Js.substring text 0 1000 ++ "..."))]
          /\ (String.length (Js.substring text 0 1000 ++ "...") <= 1000 + 3)%nat)
    /\ (json_size body <= maxResponseBodySize (this w) ->
        HistoryRecord.responseBody r = body)
    /\ (truthy body = false -> HistoryRecord.responseBody r = body).
Proof.
  intros Hon Hid Hup Hrec Hown. cbn zeta.
  rewrite (completeRequest_run now id resp w existing Hon Hid Hup Hrec).
  cbn zeta. cbn [snd]. eexists. split.
  { apply fetched_after_save; [|exact Hown].
    apply store_up_received, Hup. }
  cbn [completedRecord HistoryRecord.responseBody]. split; [|split].
  - intros Htruthy Hbig. rewrite Htruthy. cbn [andb].
    rewrite (proj2 (Z.gtb_lt _ _)) by lia.
    destruct (stringify_truthy _ Htruthy) as [text Htext].
    exists text. unfold json_size. rewrite Htext. cbn [nullish].
    split; [reflexivity|]. split; [reflexivity|].
    rewrite string_length_app. unfold Js.substring. cbn [Nat.min Nat.max].
    pose proof (substring_prefix_length (1000 - 0) text) as Hlen.
    cbn [String.length]. lia.
  - intros Hsmall.
    destruct (Z.gtb_spec (json_size (ResponseData.responseBody resp))
                (maxResponseBodySize (this w))) as [Hgt|_]; [lia|].
    rewrite andb_false_r. reflexivity.
  - intros Hfalsy. rewrite Hfalsy. reflexivity.
Qed.

Lemma completeRequest_summarises_witness :
  exists r,
    fst (getRequestDetails "id-1"
           (snd (completeRequest 1500 (Some "id-1") (sample_response long_answer)
                   started_world)))
    = Returned (Some r)
    /\ HistoryRecord.responseBody r =
       JObj [("type", JStr "truncated");
             ("originalLength", JNum 74);
             ("preview",
              JStr (nullish (stringify long_answer) "" ++ "..."))].
Proof.
  destruct (completeRequest_summarises_large_truthy_body 1500 "id-1"
              (sample_response long_answer) started_world
              (historyRecord "id-1" "2025-01-01T00:00:00.000Z" 1000
                 (sample_request (JObj chat_body))
                 (JObj (assign_prop "messages" truncated_messages chat_body))))
    as (r & Hget & Hbig & _).
  - reflexivity.
  - discriminate.
  - intros n. reflexivity.
  - vm_compute. reflexivity.
  - reflexivity.
  - exists r. split; [exact Hget|].
    destruct Hbig as (text & Htext & Hbody & _); [reflexivity | reflexivity |].
    rewrite Hbody. injection Htext as <-. vm_compute. reflexivity.
Defined.

(** ** From start to a terminal state *)

(** X22. A started request reads back as pending.  With logging on,
    the store answering, a positive record limit and a fresh id, the
    record [getRequestDetails] returns for the id has status [pending],
    the id, the time of the start, the sanitized headers, and as model
    the first truthy one of [requestData.model], the [model] of the body
    and ["unknown"], so never an empty one. *)
Lemma startRequest_then_get_pending uuid iso now rd w :
  enableHistoryLogging (this w) = true ->
  store_up (redis w) ->
  0 < maxRecordsPerKey (this w) ->
  (forall key, RequestData.apiKeyId rd = Some key ->
     uuid ∉ Redis.byKey (redis w) !!! key) ->
  exists r,
    fst (getRequestDetails uuid (snd (startRequest uuid iso now rd w)))
      = Returned (Some r)
    /\ HistoryRecord.requestId r = uuid
    /\ HistoryRecord.status r = pending
    /\ HistoryRecord.startTime r = now
    /\ HistoryRecord.headers r = sanitizeHeaders (RequestData.headers rd)
    /\ HistoryRecord.model r =
       (if truthy (RequestData.model rd) then RequestData.model rd
        else if truthy (get_opt (RequestData.requestBody rd) "model")
             then get_opt (RequestData.requestBody rd) "model"
             else JStr "unknown")
    /\ truthy (HistoryRecord.model r) = true
    /\ HistoryRecord.endTime r = None
    /\ HistoryRecord.duration r = None.
Proof.
  intros Hon Hup Hpos Hfresh.
  destruct (startRequest_stores uuid iso now rd w Hon Hup Hpos Hfresh)
    as (_ & Hrec & Hup' & _). cbn zeta in Hrec.
  eexists. split.
  { rewrite (getRequestDetails_run _ _ (store_up_next _ Hup')), Hrec. reflexivity. }
  cbn [historyRecord HistoryRecord.requestId HistoryRecord.status
       HistoryRecord.startTime HistoryRecord.headers HistoryRecord.model
       HistoryRecord.endTime HistoryRecord.duration].
  unfold or_else.
  destruct (truthy (RequestData.model rd)) eqn:H1; rewrite ?H1;
    destruct (truthy (get_opt (RequestData.requestBody rd) "model")) eqn:H2;
    rewrite ?H1, ?H2; repeat split.
Qed.

(** X23. A request started at [t0] and completed at [t1] reads back as a
    success of duration [t1 - t0]. *)
Lemma startRequest_then_completeRequest uuid iso t0 t1 rd resp w :
  uuid <> "" ->
  enableHistoryLogging (this w) = true ->
  store_up (redis w) ->
  0 < maxRecordsPerKey (this w) ->
  (forall key, RequestData.apiKeyId rd = Some key ->
     uuid ∉ Redis.byKey (redis w) !!! key) ->
  let started := snd (startRequest uuid iso t0 rd w) in
  let completed := snd (completeRequest t1 (Some uuid) resp started) in
  exists r,
    fst (getRequestDetails uuid completed) = Returned (Some r)
    /\ HistoryRecord.status r = success
    /\ HistoryRecord.startTime r = t0
    /\ HistoryRecord.endTime r = Some t1
    /\ HistoryRecord.duration r = Some (t1 - t0).
Proof.
  intros Hid Hon Hup Hpos Hfresh. cbn zeta.
  destruct (startRequest_stores uuid iso t0 rd w Hon Hup Hpos Hfresh)
    as (_ & Hrec & Hup' & Hthis). cbn zeta in Hrec.
  rewrite <- Hthis in Hon.
  rewrite (completeRequest_run t1 uuid resp _ _ Hon Hid Hup' Hrec).
  cbn zeta. cbn [snd]. eexists. split.
  { apply fetched_after_save; [|reflexivity]. apply store_up_received, Hup'. }
  repeat split.
Qed.

(** X24. A request started at [t0] and failed at [t1] reads back as an
    error of duration [t1 - t0]. *)
Lemma startRequest_then_failRequest uuid iso t0 t1 rd err w :
  uuid <> "" ->
  enableHistoryLogging (this w) = true ->
  store_up (redis w) ->
  0 < maxRecordsPerKey (this w) ->
  (forall key, RequestData.apiKeyId rd = Some key ->
     uuid ∉ Redis.byKey (redis w) !!! key) ->
  let started := snd (startRequest uuid iso t0 rd w) in
  let failed := snd (failRequest t1 (Some uuid) err started) in
  exists r,
    fst (getRequestDetails uuid failed) = Returned (Some r)
    /\ HistoryRecord.status r = error
    /\ HistoryRecord.startTime r = t0
    /\ HistoryRecord.endTime r = Some t1
    /\ HistoryRecord.duration r = Some (t1 - t0).
Proof.
  intros Hid Hon Hup Hpos Hfresh. cbn zeta.
  destruct (startRequest_stores uuid iso t0 rd w Hon Hup Hpos Hfresh)
    as (_ & Hrec & Hup' & Hthis). cbn zeta in Hrec.
  rewrite <- Hthis in Hon.
  rewrite (failRequest_run t1 uuid err _ _ Hon Hid Hup' Hrec).
  cbn zeta. cbn [snd]. eexists. split.
  { apply fetched_after_save; [|reflexivity]. apply store_up_received, Hup'. }
  repeat split.
Qed.

(** X9. With logging off the three operations of the recorder are
    no-ops: [startRequest] returns [null], [completeRequest] and
    [failRequest] return, the store is sent nothing and nothing changes. *)
Lemma logging_disabled_no_op uuid iso now rd resp err id w :
  enableHistoryLogging (this w) = false ->
  startRequest uuid iso now rd w = (Returned None, w)
  /\ completeRequest now id resp w = (Returned tt, w)
  /\ failRequest now id err w = (Returned tt, w).
Proof.
  intros Hoff. unfold startRequest, completeRequest, failRequest, bind, read_this.
  rewrite Hoff. repeat split.
Qed.

(** * Further properties *)

(** ** The methods under any failure of the store *)

Lemma try_catch_ret {A} (body : M A) (d : A) w :
  exists a, fst (try_catch body (ret d) w) = Returned a.
Proof.
  unfold try_catch. destruct (body w) as [[a|e] w']; cbn; eauto.
Qed.

Lemma enforceRecordLimit_cases key w :
  key <> "" ->
  enforceRecordLimit (Some key) w =
  let limit := maxRecordsPerKey (this w) in
  let count := Z.of_nat (length (Redis.byKey (redis w) !!! key)) in
  let counted := Redis.received (Redis.GetRequestHistoryCount key) (redis w) in
  let removal := Redis.RemoveOldestRequestHistory key (count - limit) in
  (Returned tt,
   {| this := this w;
      redis :=
        if next_command_fails (redis w) then counted
        else if count >? limit + 100 then
          if next_command_fails counted then Redis.received removal counted
          else snd (Redis.removeOldestRequestHistory key (count - limit)
                      (Redis.received removal counted))
        else counted |}).
Proof.
  intros Hkey. unfold enforceRecordLimit.
  cbn [str_falsy nullish]. rewrite (proj2 (String.eqb_neq key "") Hkey).
  unfold try_catch, bind, read_this. rewrite await_run.
  destruct (next_command_fails (redis w)); [reflexivity|].
  cbn [fst snd Redis.getRequestHistoryCount this redis].
  change (Redis.byKey (Redis.received (Redis.GetRequestHistoryCount key) (redis w)))
    with (Redis.byKey (redis w)).
  destruct (_ >? _); [|reflexivity].
  rewrite await_run. cbn [this redis].
  destruct (next_command_fails _); reflexivity.
Qed.

Lemma enforceRecordLimit_returns k w : fst (enforceRecordLimit k w) = Returned tt.
Proof.
  destruct (str_falsy k) eqn:Hk.
  - rewrite (enforceRecordLimit_skips k w Hk). reflexivity.
  - destruct k as [key|]; [|discriminate Hk].
    cbn [str_falsy] in Hk. apply String.eqb_neq in Hk.
    rewrite (enforceRecordLimit_cases key w Hk). reflexivity.
Qed.

Lemma startRequest_cases uuid iso now rd w :
  enableHistoryLogging (this w) = true ->
  startRequest uuid iso now rd w =
  let body := RequestData.requestBody rd in
  let r := historyRecord uuid iso now rd
             (if truthy body && (json_size body >? maxRequestBodySize (this w))
              then JObj (assign_prop "messages"
                           (if truthy (Js.get body "messages")
                            then truncated_messages
                            else Js.get body "messages")
                           (spread body))
              else body) in
  let sent := Redis.received (Redis.SaveRequestHistory r) (redis w) in
  if next_command_fails (redis w)
  then (Returned None, {| this := this w; redis := sent |})
  else (Returned (Some uuid),
        snd (enforceRecordLimit (RequestData.apiKeyId rd)
               {| this := this w;
                  redis := snd (Redis.saveRequestHistory r sent) |})).
Proof.
  intros Hon. cbn zeta.
  destruct (next_command_fails (redis w)) eqn:Hfail.
  - unfold startRequest, bind at 1, read_this. rewrite Hon.
    cbn [negb]. unfold try_catch, bind. rewrite limitRequestBody_run.
    rewrite await_run, Hfail. reflexivity.
  - rewrite (startRequest_run uuid iso now rd w Hon Hfail). cbn zeta.
    match goal with
    | |- context [enforceRecordLimit ?k ?s] =>
        pose proof (enforceRecordLimit_returns k s) as Hret
    end.
    destruct (enforceRecordLimit _ _) as [[[]|e] w'];
      [reflexivity | discriminate Hret].
Qed.

Lemma completeRequest_cases now id resp w :
  enableHistoryLogging (this w) = true ->
  id <> "" ->
  completeRequest now (Some id) resp w =
  let body := ResponseData.responseBody resp in
  let asked := Redis.received (Redis.GetRequestHistory id) (redis w) in
  (Returned tt,
   {| this := this w;
      redis :=
        if next_command_fails (redis w) then asked
        else match Redis.records (redis w) !! id with
             | None => asked
             | Some existing =>
                 let updated :=
                   completedRecord existing
                     (Some (now - HistoryRecord.startTime existing))
                     (if truthy body
                         && (json_size body >? maxResponseBodySize (this w))
                      then JObj [("type", JStr "truncated");
                                 ("originalLength", JNum (json_size body));
                                 ("preview",
                                  JStr (Js.substring (nullish (stringify body) "")
                                          0 1000 ++ "..."))]
                      else body)
                     resp now in
                 let sent := Redis.received (Redis.SaveRequestHistory updated) asked in
                 if next_command_fails asked then sent
                 else snd (Redis.saveRequestHistory updated sent)
             end |}).
Proof.
  intros Hon Hid. unfold completeRequest, bind at 1, read_this.
  rewrite Hon. cbn [negb orb str_falsy nullish].
  rewrite (proj2 (String.eqb_neq id "") Hid).
  unfold try_catch, bind. rewrite await_run.
  destruct (next_command_fails (redis w)); [reflexivity|].
  cbn [fst snd Redis.getRequestHistory].
  change (Redis.records (Redis.received (Redis.GetRequestHistory id) (redis w)))
    with (Redis.records (redis w)).
  destruct (Redis.records (redis w) !! id) as [existing|]; [|reflexivity].
  rewrite limitResponseBody_run, elapsed_since_start. cbn [this redis].
  rewrite await_run. cbn [this redis].
  destruct (next_command_fails _); reflexivity.
Qed.

Lemma failRequest_cases now id err w :
  enableHistoryLogging (this w) = true ->
  id <> "" ->
  failRequest now (Some id) err w =
  let asked := Redis.received (Redis.GetRequestHistory id) (redis w) in
  (Returned tt,
   {| this := this w;
      redis :=
        if next_command_fails (redis w) then asked
        else match Redis.records (redis w) !! id with
             | None => asked
             | Some existing =>
                 let updated :=
                   failedRecord existing
                     (Some (now - HistoryRecord.startTime existing)) err now in
                 let sent := Redis.received (Redis.SaveRequestHistory updated) asked in
                 if next_command_fails asked then sent
                 else snd (Redis.saveRequestHistory updated sent)
             end |}).
Proof.
  intros Hon Hid. unfold failRequest, bind at 1, read_this.
  rewrite Hon. cbn [negb orb str_falsy nullish].
  rewrite (proj2 (String.eqb_neq id "") Hid).
  unfold try_catch, bind. rewrite await_run.
  destruct (next_command_fails (redis w)); [reflexivity|].
  cbn [fst snd Redis.getRequestHistory].
  change (Redis.records (Redis.received (Redis.GetRequestHistory id) (redis w)))
    with (Redis.records (redis w)).
  destruct (Redis.records (redis w) !! id) as [existing|]; [|reflexivity].
  rewrite elapsed_since_start. cbn [this redis].
  rewrite await_run. cbn [this redis].
  destruct (next_command_fails _); reflexivity.
Qed.

(** With logging off, or without an id, completion and failure return at
    once. *)
Lemma terminal_skipped now rid resp err w :
  negb (enableHistoryLogging (this w)) || str_falsy rid = true ->
  completeRequest now rid resp w = (Returned tt, w)
  /\ failRequest now rid err w = (Returned tt, w).
Proof.
  intros H. unfold completeRequest, failRequest, bind, read_this.
  rewrite H. split; reflexivity.
Qed.

Lemma sanitizeHeaders_redacted h : headers_redacted (sanitizeHeaders h).
Proof.
  intros k v Hk Hsens. destruct h as [h|].
  - rewrite sanitizeHeaders_lookup, Hsens in Hk.
    destruct (String.eqb k "__proto__"); [discriminate Hk|].
    destruct (h !! k); cbn in Hk; congruence.
  - cbn [sanitizeHeaders] in Hk. rewrite lookup_empty in Hk. discriminate Hk.
Qed.

(** What a method leaves behind: its config, the commands it added. *)
Lemma enforceRecordLimit_footprint k w :
  let w' := snd (enforceRecordLimit k w) in
  this w' = this w
  /\ Redis.blobs (redis w') = Redis.blobs (redis w)
  /\ exists new,
       Redis.issued (redis w') = (Redis.issued (redis w) ++ new)%list
       /\ (length new <= 2)%nat
       /\ Forall (fun c => forall r, c <> Redis.SaveRequestHistory r) new.
Proof.
  cbn zeta. destruct (str_falsy k) eqn:Hk.
  { rewrite (enforceRecordLimit_skips k w Hk). cbn [snd].
    repeat split. exists []. rewrite app_nil_r. repeat split; [cbn; lia | constructor]. }
  destruct k as [key|]; [|discriminate Hk].
  cbn [str_falsy] in Hk. apply String.eqb_neq in Hk.
  rewrite (enforceRecordLimit_cases key w Hk). cbn zeta. cbn [snd this redis].
  destruct (next_command_fails (redis w)).
  { repeat split. eexists [_]. repeat split; [cbn; lia|].
    repeat constructor. discriminate. }
  destruct (_ >? _).
  - destruct (next_command_fails _); repeat split;
      (eexists [_; _]; cbn; rewrite <- app_assoc; repeat split; [lia|];
       repeat constructor; discriminate).
  - repeat split. eexists [_]. repeat split; [cbn; lia|].
    repeat constructor. discriminate.
Qed.

Lemma startRequest_footprint uuid iso now rd w :
  let w' := snd (startRequest uuid iso now rd w) in
  this w' = this w
  /\ Redis.blobs (redis w') = Redis.blobs (redis w)
  /\ exists new,
       Redis.issued (redis w') = (Redis.issued (redis w) ++ new)%list
       /\ (length new <= 3)%nat
       /\ Forall (carries_redacted rd) new.
Proof.
  cbn zeta. destruct (enableHistoryLogging (this w)) eqn:Hon.
  - rewrite (startRequest_cases uuid iso now rd w Hon). cbn zeta.
    destruct (next_command_fails (redis w)); cbn [snd this redis].
    + repeat split. eexists [_]. repeat split; [cbn; lia|].
      repeat constructor. apply sanitizeHeaders_redacted.
    + match goal with
      | |- context [enforceRecordLimit ?k ?s] =>
          destruct (enforceRecordLimit_footprint k s)
            as (Hthis & Hblobs & new & Hnew & Hlen & Hkind)
      end.
      cbn zeta in *. cbn [this redis] in *. rewrite Hthis, Hblobs, Hnew.
      repeat split.
      exists (Redis.SaveRequestHistory
                (historyRecord uuid iso now rd
                   (if truthy (RequestData.requestBody rd)
                       && (json_size (RequestData.requestBody rd)
                           >? maxRequestBodySize (this w))
                    then JObj (assign_prop "messages"
                                 (if truthy (Js.get (RequestData.requestBody rd) "messages")
                                  then truncated_messages
                                  else Js.get (RequestData.requestBody rd) "messages")
                                 (spread (RequestData.requestBody rd)))
                    else RequestData.requestBody rd)) :: new).
      cbn [Redis.saveRequestHistory snd Redis.issued Redis.received].
      rewrite <- app_assoc. repeat split; [cbn; lia|].
      constructor.
      * split; [reflexivity | apply sanitizeHeaders_redacted].
      * eapply Forall_impl; [exact Hkind|].
        intros [] Hc; cbn; try exact I. exfalso. eapply Hc. reflexivity.
  - unfold startRequest, bind, read_this. rewrite Hon. cbn.
    repeat split. exists []. rewrite app_nil_r. repeat split; [cbn; lia | constructor].
Qed.

Lemma completeRequest_footprint now rid resp w :
  let w' := snd (completeRequest now rid resp w) in
  this w' = this w
  /\ Redis.blobs (redis w') = Redis.blobs (redis w)
  /\ exists new,
       Redis.issued (redis w') = (Redis.issued (redis w) ++ new)%list
       /\ (length new <= 2)%nat.
Proof.
  cbn zeta.
  destruct (negb (enableHistoryLogging (this w)) || str_falsy rid) eqn:Hskip.
  { destruct (terminal_skipped now rid resp
                {| ErrorData.error := None; ErrorData.statusCode := None |} w Hskip)
      as [-> _].
    repeat split. exists []. rewrite app_nil_r. split; [reflexivity | cbn; lia]. }
  apply orb_false_elim in Hskip as [Hon Hrid].
  apply negb_false_iff in Hon.
  destruct rid as [id|]; [|discriminate Hrid].
  cbn [str_falsy] in Hrid. apply String.eqb_neq in Hrid.
  rewrite (completeRequest_cases now id resp w Hon Hrid). cbn zeta. cbn [snd this redis].
  destruct (next_command_fails (redis w)).
  { repeat split. eexists [_]. split; [reflexivity | cbn; lia]. }
  destruct (Redis.records (redis w) !! id).
  - destruct (next_command_fails _); repeat split;
      (eexists [_; _]; cbn; rewrite <- app_assoc; split; [reflexivity | lia]).
  - repeat split. eexists [_]. split; [reflexivity | cbn; lia].
Qed.

Lemma failRequest_footprint now rid err w :
  let w' := snd (failRequest now rid err w) in
  this w' = this w
  /\ Redis.blobs (redis w') = Redis.blobs (redis w)
  /\ exists new,
       Redis.issued (redis w') = (Redis.issued (redis w) ++ new)%list
       /\ (length new <= 2)%nat.
Proof.
  cbn zeta.
  destruct (negb (enableHistoryLogging (this w)) || str_falsy rid) eqn:Hskip.
  { destruct (terminal_skipped now rid
                {| ResponseData.responseBody := JUndefined;
                   ResponseData.statusCode := None;
                   ResponseData.inputTokens := None;
                   ResponseData.outputTokens := None;
                   ResponseData.cacheCreateTokens := None;
                   ResponseData.cacheReadTokens := None |} err w Hskip)
      as [_ ->].
    repeat split. exists []. rewrite app_nil_r. split; [reflexivity | cbn; lia]. }
  apply orb_false_elim in Hskip as [Hon Hrid].
  apply negb_false_iff in Hon.
  destruct rid as [id|]; [|discriminate Hrid].
  cbn [str_falsy] in Hrid. apply String.eqb_neq in Hrid.
  rewrite (failRequest_cases now id err w Hon Hrid). cbn zeta. cbn [snd this redis].
  destruct (next_command_fails (redis w)).
  { repeat split. eexists [_]. split; [reflexivity | cbn; lia]. }
  destruct (Redis.records (redis w) !! id).
  - destruct (next_command_fails _); repeat split;
      (eexists [_; _]; cbn; rewrite <- app_assoc; split; [reflexivity | lia]).
  - repeat split. eexists [_]. split; [reflexivity | cbn; lia].
Qed.

Lemma completeRequest_returns now rid resp w :
  fst (completeRequest now rid resp w) = Returned tt.
Proof.
  unfold completeRequest, bind at 1, read_this.
  destruct (_ || _); [reflexivity|].
  destruct (try_catch_ret
    (existingRecord <-
       await (Redis.GetRequestHistory (nullish rid ""))
         (Redis.getRequestHistory (nullish rid "")) ;;
     match existingRecord with
     | None => ret tt
     | Some existingRecord =>
         responseBody <- limitResponseBody (ResponseData.responseBody resp) ;;
         await (Redis.SaveRequestHistory
                  (completedRecord existingRecord (elapsed now existingRecord)
                     responseBody resp now))
               (Redis.saveRequestHistory
                  (completedRecord existingRecord (elapsed now existingRecord)
                     responseBody resp now))
     end) tt w) as [[] H].
  exact H.
Qed.

Lemma failRequest_returns now rid err w :
  fst (failRequest now rid err w) = Returned tt.
Proof.
  unfold failRequest, bind at 1, read_this.
  destruct (_ || _); [reflexivity|].
  destruct (try_catch_ret
    (existingRecord <-
       await (Redis.GetRequestHistory (nullish rid ""))
         (Redis.getRequestHistory (nullish rid "")) ;;
     match existingRecord with
     | None => ret tt
     | Some existingRecord =>
         await (Redis.SaveRequestHistory
                  (failedRecord existingRecord (elapsed now existingRecord) err now))
               (Redis.saveRequestHistory
                  (failedRecord existingRecord (elapsed now existingRecord) err now))
     end) tt w) as [[] H].
  exact H.
Qed.

(** X1. No failure of the store escapes the recorder: whatever commands
    fail, and whatever the arguments, [startRequest] returns an id or
    [null], and [completeRequest], [failRequest], [enforceRecordLimit] and
    [getRequestDetails] return, none of them throws. *)
Theorem recorder_never_throws
    (uuid iso : string) (now : Z) (rd : RequestData.t) (rid : option string)
    (resp : ResponseData.t) (err : ErrorData.t) (id : string) (w : World) :
  (fst (startRequest uuid iso now rd w) = Returned (Some uuid)
   \/ fst (startRequest uuid iso now rd w) = Returned None)
  /\ fst (completeRequest now rid resp w) = Returned tt
  /\ fst (failRequest now rid err w) = Returned tt
  /\ fst (enforceRecordLimit rid w) = Returned tt
  /\ (fst (getRequestDetails id w) = Returned (Redis.records (redis w) !! id)
      \/ fst (getRequestDetails id w) = Returned None).
Proof.
  split; [|split; [apply completeRequest_returns
                  |split; [apply failRequest_returns
                          |split; [apply enforceRecordLimit_returns|]]]].
  - destruct (enableHistoryLogging (this w)) eqn:Hon.
    + rewrite (startRequest_cases uuid iso now rd w Hon). cbn zeta.
      destruct (next_command_fails (redis w)); [right | left]; reflexivity.
    + right. unfold startRequest, bind, read_this. rewrite Hon. reflexivity.
  - unfold getRequestDetails, try_catch. rewrite await_run.
    destruct (next_command_fails (redis w)); [right | left]; reflexivity.
Qed.

(** X2. No failure of the store escapes the configuration methods:
    [initializeConfig] returns, [saveConfigToRedis] returns whether its
    write went through, [updateConfig] returns that same answer ([false]
    for a [null] argument, which sends nothing), and [loadConfigFromRedis]
    returns the parsed blob, or [null] when the read fails, the blob is
    absent or empty, or it does not parse. *)
Theorem config_methods_never_throw
    (parse : string -> option SavedConfig.t) (iso : string)
    (n : NewConfig.t) (w : World) :
  fst (initializeConfig parse iso w) = Returned tt
  /\ fst (saveConfigToRedis iso w) = Returned (negb (next_command_fails (redis w)))
  /\ fst (updateConfig iso (Some n) w) = Returned (negb (next_command_fails (redis w)))
  /\ updateConfig iso None w = (Returned false, w)
  /\ fst (loadConfigFromRedis parse w) =
     Returned (if next_command_fails (redis w) then None
               else match Redis.blobs (redis w) !! config_key with
                    | Some b => if String.eqb b "" then None else parse b
                    | None => None
                    end).
Proof.
  split; [|split; [|split; [|split]]].
  - rewrite initializeConfig_run. cbn zeta.
    destruct (fst (loadConfigFromRedis parse w)) as [[saved|]|e]; reflexivity.
  - rewrite saveConfigToRedis_run. cbn zeta.
    destruct (next_command_fails (redis w)); reflexivity.
  - rewrite updateConfig_run, saveConfigToRedis_run. cbn zeta. cbn [redis].
    destruct (next_command_fails (redis w)); reflexivity.
  - reflexivity.
  - rewrite loadConfigFromRedis_run. reflexivity.
Qed.

(** ** What the store is asked *)

(** X4. Nothing is retried: whatever fails, a method only adds commands
    to those the store has received, at most three for [startRequest]
    (save, count, removal), two for [completeRequest] and [failRequest]
    (read, save) and for [enforceRecordLimit] (count, removal), one for
    [updateConfig] (the write), and exactly the read, followed by the
    write of the defaults when nothing was loaded, for
    [initializeConfig]. *)
Theorem no_command_is_retried
    (parse : string -> option SavedConfig.t) (uuid iso : string) (now : Z)
    (rd : RequestData.t) (rid : option string) (resp : ResponseData.t)
    (err : ErrorData.t) (n : option NewConfig.t) (w : World) :
  let added (w' : World) (bound : nat) :=
    exists new,
      Redis.issued (redis w') = (Redis.issued (redis w) ++ new)%list
      /\ (length new <= bound)%nat in
  added (snd (startRequest uuid iso now rd w)) 3%nat
  /\ added (snd (completeRequest now rid resp w)) 2%nat
  /\ added (snd (failRequest now rid err w)) 2%nat
  /\ added (snd (enforceRecordLimit rid w)) 2%nat
  /\ added (snd (updateConfig iso n w)) 1%nat
  /\ added (snd (initializeConfig parse iso w)) 2%nat.
Proof.
  cbn zeta. split; [|split; [|split; [|split; [|split]]]].
  - destruct (startRequest_footprint uuid iso now rd w)
      as (_ & _ & new & Hnew & Hlen & _). eauto.
  - destruct (completeRequest_footprint now rid resp w)
      as (_ & _ & new & Hnew & Hlen). eauto.
  - destruct (failRequest_footprint now rid err w)
      as (_ & _ & new & Hnew & Hlen). eauto.
  - destruct (enforceRecordLimit_footprint rid w)
      as (_ & _ & new & Hnew & Hlen & _). eauto.
  - destruct n as [n|].
    + rewrite updateConfig_run, saveConfigToRedis_run. cbn zeta. cbn [redis].
      destruct (next_command_fails (redis w)); eexists [_];
        split; try reflexivity; cbn; lia.
    + exists []. rewrite updateConfig_null, app_nil_r.
      split; [reflexivity | cbn; lia].
  - rewrite initializeConfig_run, loadConfigFromRedis_run. cbn zeta. cbn [fst].
    set (o := if next_command_fails (redis w) then None else _).
    destruct o as [saved|].
    + eexists [_]. split; [reflexivity | cbn; lia].
    + rewrite saveConfigToRedis_run. cbn zeta.
      destruct (next_command_fails _); eexists [_; _]; cbn;
        rewrite <- app_assoc; split; try reflexivity; lia.
Qed.

(** X5. Whatever fails, every record that [startRequest] sends to the
    store carries the sanitized headers of the request: under a name of
    the denylist, in any casing, there is the marker and nothing else.
    The other commands it sends carry no record. *)
Theorem startRequest_sends_only_redacted_headers
    (uuid iso : string) (now : Z) (rd : RequestData.t) (w : World) :
  exists new,
    Redis.issued (redis (snd (startRequest uuid iso now rd w)))
      = (Redis.issued (redis w) ++ new)%list
    /\ Forall (fun c =>
                 match c with
                 | Redis.SaveRequestHistory r =>
                     HistoryRecord.headers r = sanitizeHeaders (RequestData.headers rd)
                     /\ forall k v,
                          HistoryRecord.headers r !! k = Some v ->
                          includes sensitiveHeaders (toLowerCase k) = true ->
                          v = JStr "[REDACTED]"
                 | _ => True
                 end) new.
Proof.
  destruct (startRequest_footprint uuid iso now rd w)
    as (_ & _ & new & Hnew & _ & Hkind).
  exists new. split; [exact Hnew | exact Hkind].
Qed.

(** X6. The recorder never touches the configuration: after
    [startRequest], [completeRequest], [failRequest], [enforceRecordLimit]
    and [getRequestDetails], whatever fails, the four in-memory tunables
    and the stored configuration blob are what they were. *)
Theorem recorder_keeps_configuration
    (uuid iso : string) (now : Z) (rd : RequestData.t) (rid : option string)
    (resp : ResponseData.t) (err : ErrorData.t) (id : string) (w : World) :
  let kept (w' : World) :=
    this w' = this w /\ Redis.blobs (redis w') = Redis.blobs (redis w) in
  kept (snd (startRequest uuid iso now rd w))
  /\ kept (snd (completeRequest now rid resp w))
  /\ kept (snd (failRequest now rid err w))
  /\ kept (snd (enforceRecordLimit rid w))
  /\ kept (snd (getRequestDetails id w)).
Proof.
  cbn zeta. split; [|split; [|split; [|split]]].
  - destruct (startRequest_footprint uuid iso now rd w) as (H1 & H2 & _). eauto.
  - destruct (completeRequest_footprint now rid resp w) as (H1 & H2 & _). eauto.
  - destruct (failRequest_footprint now rid err w) as (H1 & H2 & _). eauto.
  - destruct (enforceRecordLimit_footprint rid w) as (H1 & H2 & _). eauto.
  - unfold getRequestDetails, try_catch. rewrite await_run.
    destruct (next_command_fails (redis w)); split; reflexivity.
Qed.

(** ** Terminal transitions at the edges *)

Lemma next_after_received c s :
  next_command_fails (Redis.received c s)
  = Redis.failing s (S (length (Redis.issued s))).
Proof.
  unfold next_command_fails. cbn [Redis.received Redis.issued Redis.failing].
  rewrite length_app. cbn [length]. rewrite Nat.add_1_r. reflexivity.
Qed.

(** X7. Completing or failing with an id the store does not know creates
    nothing: the store is asked for the record once and, found or not
    reached, nothing is written; without an id ([null], [undefined] or the
    empty string) the store is not even asked. *)
Theorem terminal_transition_of_unknown_id
    (now : Z) (id : string) (resp : ResponseData.t) (err : ErrorData.t)
    (w : World) :
  enableHistoryLogging (this w) = true ->
  id <> "" ->
  Redis.records (redis w) !! id = None ->
  let asked :=
    {| this := this w;
       redis := Redis.received (Redis.GetRequestHistory id) (redis w) |} in
  completeRequest now (Some id) resp w = (Returned tt, asked)
  /\ failRequest now (Some id) err w = (Returned tt, asked)
  /\ Redis.records (redis asked) = Redis.records (redis w)
  /\ Redis.byKey (redis asked) = Redis.byKey (redis w)
  /\ completeRequest now None resp w = (Returned tt, w)
  /\ completeRequest now (Some "") resp w = (Returned tt, w)
  /\ failRequest now None err w = (Returned tt, w)
  /\ failRequest now (Some "") err w = (Returned tt, w).
Proof.
  intros Hon Hid Hnone. cbn zeta.
  rewrite (completeRequest_cases now id resp w Hon Hid).
  rewrite (failRequest_cases now id err w Hon Hid). cbn zeta. rewrite Hnone.
  assert (Hskip : forall rid, str_falsy rid = true ->
            negb (enableHistoryLogging (this w)) || str_falsy rid = true).
  { intros rid ->. apply orb_true_r. }
  destruct (next_command_fails (redis w)); repeat split;
    solve [ apply (terminal_skipped now _ resp err w), Hskip; reflexivity ].
Qed.

Lemma terminal_transition_of_unknown_id_witness :
  completeRequest 1500 (Some "id-2") (sample_response (JStr "ok")) started_world
  = (Returned tt,
     {| this := this started_world;
        redis := Redis.received (Redis.GetRequestHistory "id-2")
                   (redis started_world) |}).
Proof.
  apply (terminal_transition_of_unknown_id 1500 "id-2"
           (sample_response (JStr "ok")) bare_error started_world).
  - reflexivity.
  - discriminate.
  - vm_compute. reflexivity.
Defined.

(** X8. A terminal transition writes the whole record or nothing, and
    never changes which records an owner has.  When the read or the write
    of [completeRequest] (of [failRequest]) fails, the record stays as it
    was; otherwise it is replaced by one with status [success] ([error]).
    Every other record, and the list of ids of every owner, is
    untouched. *)
Theorem terminal_transition_all_or_nothing
    (now : Z) (id : string) (resp : ResponseData.t) (err : ErrorData.t)
    (w : World) (existing : HistoryRecord.t) :
  enableHistoryLogging (this w) = true ->
  id <> "" ->
  Redis.records (redis w) !! id = Some existing ->
  HistoryRecord.requestId existing = id ->
  let failed :=
    next_command_fails (redis w)
    || Redis.failing (redis w) (S (length (Redis.issued (redis w)))) in
  let outcome (w' : World) (terminal : Status) :=
    Redis.byKey (redis w') = Redis.byKey (redis w)
    /\ (forall other, other <> id ->
          Redis.records (redis w') !! other = Redis.records (redis w) !! other)
    /\ if failed then Redis.records (redis w') !! id = Some existing
       else exists r, Redis.records (redis w') !! id = Some r
                      /\ HistoryRecord.status r = terminal in
  outcome (snd (completeRequest now (Some id) resp w)) success
  /\ outcome (snd (failRequest now (Some id) err w)) error.
Proof.
  intros Hon Hid Hrec Hown. cbn zeta.
  rewrite (completeRequest_cases now id resp w Hon Hid).
  rewrite (failRequest_cases now id err w Hon Hid). cbn zeta. rewrite Hrec.
  rewrite !next_after_received. cbn [snd redis].
  destruct (next_command_fails (redis w)); cbn [orb].
  { repeat split; assumption. }
  destruct (Redis.failing (redis w) (S (length (Redis.issued (redis w))))).
  { repeat split; assumption. }
  cbn [Redis.saveRequestHistory snd Redis.received Redis.records Redis.byKey
       completedRecord failedRecord HistoryRecord.requestId HistoryRecord.apiKeyId].
  rewrite Hown, Hrec.
  repeat split;
    try (intros other Hother; apply lookup_insert_ne; congruence);
    (eexists; split; [apply lookup_insert_eq | reflexivity]).
Qed.

Lemma terminal_transition_all_or_nothing_witness :
  exists r,
    Redis.records
      (redis (snd (completeRequest 1500 (Some "id-1")
                     (sample_response (JStr "ok")) started_world))) !! "id-1"
    = Some r
    /\ HistoryRecord.status r = success.
Proof.
  destruct (terminal_transition_all_or_nothing 1500 "id-1"
              (sample_response (JStr "ok")) bare_error started_world
              (historyRecord "id-1" "2025-01-01T00:00:00.000Z" 1000
                 (sample_request (JObj chat_body))
                 (JObj (assign_prop "messages" truncated_messages chat_body))))
    as ((_ & _ & Hdone) & _).
  - reflexivity.
  - discriminate.
  - vm_compute. reflexivity.
  - reflexivity.
  - exact Hdone.
Defined.

Lemma logging_disabled_witness :
  startRequest "id-9" "2025-01-01T00:00:00.000Z" 1000
    (sample_request (JObj chat_body)) silent_world
    = (Returned None, silent_world)
  /\ completeRequest 1000 (Some "id-1") (sample_response (JStr "ok")) silent_world
    = (Returned tt, silent_world)
  /\ failRequest 1000 (Some "id-1") bare_error silent_world
    = (Returned tt, silent_world).
Proof.
  apply (logging_disabled_no_op "id-9" "2025-01-01T00:00:00.000Z" 1000
           (sample_request (JObj chat_body)) (sample_response (JStr "ok"))
           bare_error (Some "id-1") silent_world).
  reflexivity.
Defined.

(** X10. A terminal transition keeps what the start recorded: after
    [completeRequest], and after [failRequest], the record read back has
    the id, timestamp, owner, model, request body, headers and start time
    of the record that was there. *)
Theorem terminal_transition_keeps_start_fields
    (now : Z) (id : string) (resp : ResponseData.t) (err : ErrorData.t)
    (w : World) (existing : HistoryRecord.t) :
  enableHistoryLogging (this w) = true ->
  id <> "" ->
  store_up (redis w) ->
  Redis.records (redis w) !! id = Some existing ->
  HistoryRecord.requestId existing = id ->
  let same (r : HistoryRecord.t) :=
    HistoryRecord.requestId r = HistoryRecord.requestId existing
    /\ HistoryRecord.timestamp r = HistoryRecord.timestamp existing
    /\ HistoryRecord.apiKeyId r = HistoryRecord.apiKeyId existing
    /\ HistoryRecord.apiKeyName r = HistoryRecord.apiKeyName existing
    /\ HistoryRecord.model r = HistoryRecord.model existing
    /\ HistoryRecord.requestBody r = HistoryRecord.requestBody existing
    /\ HistoryRecord.headers r = HistoryRecord.headers existing
    /\ HistoryRecord.startTime r = HistoryRecord.startTime existing in
  (exists r,
     fst (getRequestDetails id (snd (completeRequest now (Some id) resp w)))
       = Returned (Some r) /\ same r)
  /\ (exists r,
        fst (getRequestDetails id (snd (failRequest now (Some id) err w)))
          = Returned (Some r) /\ same r).
Proof.
  intros Hon Hid Hup Hrec Hown. cbn zeta.
  rewrite (completeRequest_run now id resp w existing Hon Hid Hup Hrec).
  rewrite (failRequest_run now id err w existing Hon Hid Hup Hrec).
  cbn zeta. cbn [snd]. split; eexists; (split;
    [apply fetched_after_save; [apply store_up_received, Hup | exact Hown]
    |repeat split]).
Qed.

Lemma terminal_transition_keeps_start_fields_witness :
  exists r,
    fst (getRequestDetails "id-1"
           (snd (failRequest 1750 (Some "id-1") overloaded_error started_world)))
      = Returned (Some r)
    /\ HistoryRecord.requestBody r =
       JObj (assign_prop "messages" truncated_messages chat_body)
    /\ HistoryRecord.startTime r = 1000.
Proof.
  destruct (terminal_transition_keeps_start_fields 1750 "id-1"
              (sample_response (JStr "ok")) overloaded_error started_world
              (historyRecord "id-1" "2025-01-01T00:00:00.000Z" 1000
                 (sample_request (JObj chat_body))
                 (JObj (assign_prop "messages" truncated_messages chat_body))))
    as (_ & r & Hget & Hsame).
  - reflexivity.
  - discriminate.
  - intros n. reflexivity.
  - vm_compute. reflexivity.
  - reflexivity.
  - exists r. split; [exact Hget|].
    destruct Hsame as (_ & _ & _ & _ & _ & Hbody & _ & Hstart).
    split; [exact Hbody | exact Hstart].
Defined.



(** ** Starting a request when the store fails *)

(** X12. When the save of [startRequest] fails, the call returns [null],
    no record is stored or listed, and retention is not run: the save is
    the only command sent. *)
Theorem startRequest_returns_null_when_save_fails
    (uuid iso : string) (now : Z) (rd : RequestData.t) (w : World) :
  enableHistoryLogging (this w) = true ->
  next_command_fails (redis w) = true ->
  let w' := snd (startRequest uuid iso now rd w) in
  fst (startRequest uuid iso now rd w) = Returned None
  /\ Redis.records (redis w') = Redis.records (redis w)
  /\ Redis.byKey (redis w') = Redis.byKey (redis w)
  /\ exists r,
       HistoryRecord.requestId r = uuid
       /\ Redis.issued (redis w') =
          (Redis.issued (redis w) ++ [Redis.SaveRequestHistory r])%list.
Proof.
  intros Hon Hfail. cbn zeta.
  rewrite (startRequest_cases uuid iso now rd w Hon). cbn zeta. rewrite Hfail.
  cbn [fst snd redis]. repeat split.
  match goal with |- context [Redis.SaveRequestHistory ?r] => exists r end.
  split; reflexivity.
Qed.

Lemma startRequest_returns_null_witness :
  fst (startRequest "id-1" "2025-01-01T00:00:00.000Z" 1000
         (sample_request (JObj chat_body)) (fresh_world always))
  = Returned None.
Proof.
  apply (startRequest_returns_null_when_save_fails
           "id-1" "2025-01-01T00:00:00.000Z" 1000
           (sample_request (JObj chat_body)) (fresh_world always));
    reflexivity.
Defined.

(** X13. A failure of retention does not fail the start.  When the save
    went through and then the count, or the removal, fails,
    [startRequest] still returns the id, the record is in the store, and
    no record was removed. *)
Theorem startRequest_survives_retention_failure
    (uuid iso : string) (now : Z) (rd : RequestData.t) (w : World) :
  enableHistoryLogging (this w) = true ->
  next_command_fails (redis w) = false ->
  Redis.failing (redis w) (S (length (Redis.issued (redis w)))) = true
  \/ Redis.failing (redis w) (S (S (length (Redis.issued (redis w))))) = true ->
  let w' := snd (startRequest uuid iso now rd w) in
  fst (startRequest uuid iso now rd w) = Returned (Some uuid)
  /\ exists r,
       HistoryRecord.requestId r = uuid
       /\ HistoryRecord.status r = pending
       /\ Redis.records (redis w') = <[uuid := r]> (Redis.records (redis w)).
Proof.
  intros Hon Hok Hfail. cbn zeta.
  rewrite (startRequest_cases uuid iso now rd w Hon). cbn zeta. rewrite Hok.
  cbn [fst]. split; [reflexivity|].
  match goal with |- context [Redis.saveRequestHistory ?r _] => exists r end.
  split; [|split]; [reflexivity | reflexivity |].
  destruct (str_falsy (RequestData.apiKeyId rd)) eqn:Hk.
  { rewrite (enforceRecordLimit_skips _ _ Hk). reflexivity. }
  destruct (RequestData.apiKeyId rd) as [key|] eqn:Hkey; [|discriminate Hk].
  cbn [str_falsy] in Hk. apply String.eqb_neq in Hk.
  rewrite (enforceRecordLimit_cases key _ Hk). cbn zeta. cbn [snd this redis].
  assert (Hnext1 : forall r, next_command_fails
            (snd (Redis.saveRequestHistory r
                    (Redis.received (Redis.SaveRequestHistory r) (redis w))))
            = Redis.failing (redis w) (S (length (Redis.issued (redis w))))).
  { intros r0. apply (next_after_received (Redis.SaveRequestHistory r0) (redis w)). }
  rewrite Hnext1.
  destruct (Redis.failing (redis w) (S (length (Redis.issued (redis w))))) eqn:H1.
  { reflexivity. }
  destruct Hfail as [Hfail|Hfail]; [discriminate Hfail|].
  destruct (_ >? _); [|reflexivity].
  rewrite next_after_received.
  cbn [Redis.saveRequestHistory snd Redis.issued Redis.received Redis.failing].
  rewrite length_app. cbn [length]. rewrite Nat.add_1_r, Hfail. reflexivity.
Qed.

Lemma startRequest_survives_retention_failure_witness :
  fst (startRequest "id-1" "2025-01-01T00:00:00.000Z" 1000
         (sample_request (JObj chat_body)) (fresh_world second_only))
  = Returned (Some "id-1").
Proof.
  apply (startRequest_survives_retention_failure
           "id-1" "2025-01-01T00:00:00.000Z" 1000
           (sample_request (JObj chat_body)) (fresh_world second_only)).
  - reflexivity.
  - reflexivity.
  - left. reflexivity.
Defined.

(** ** Retention as an invariant *)

Lemma enforceRecordLimit_bound key w :
  key <> "" ->
  store_up (redis w) ->
  0 < maxRecordsPerKey (this w) ->
  let w' := snd (enforceRecordLimit (Some key) w) in
  Z.of_nat (length (Redis.byKey (redis w') !!! key)) <= maxRecordsPerKey (this w) + 100
  /\ (length (Redis.byKey (redis w') !!! key)
      <= length (Redis.byKey (redis w) !!! key))%nat
  /\ (forall other, other <> key ->
        Redis.byKey (redis w') !!! other = Redis.byKey (redis w) !!! other)
  /\ store_up (redis w')
  /\ this w' = this w.
Proof.
  intros Hkey Hup Hpos. cbn zeta.
  rewrite (enforceRecordLimit_run key w Hkey Hup). cbn zeta. cbn [snd redis this].
  destruct (Z.gtb_spec (Z.of_nat (length (Redis.byKey (redis w) !!! key)))
              (maxRecordsPerKey (this w) + 100)) as [Hgt|Hle].
  - cbn [snd Redis.removeOldestRequestHistory Redis.received Redis.byKey
         Redis.failing].
    rewrite lookup_total_insert_eq, length_drop.
    split; [lia|]. split; [lia|]. split; [|split; [exact Hup | reflexivity]].
    intros other Hother. apply lookup_total_insert_ne. congruence.
  - cbn [Redis.received Redis.byKey]. split; [exact Hle|]. split; [lia|].
    split; [reflexivity | split; [exact Hup | reflexivity]].
Qed.

(** X14. Retention keeps every owner within the buffer: after a
    [startRequest] for an owning key, with the store answering and a
    positive limit, that key has at most [maxRecordsPerKey + 100] records
    listed, however many it had before. *)
Theorem startRequest_keeps_owner_within_buffer
    (uuid iso : string) (now : Z) (rd : RequestData.t) (w : World) (key : string) :
  enableHistoryLogging (this w) = true ->
  store_up (redis w) ->
  0 < maxRecordsPerKey (this w) ->
  RequestData.apiKeyId rd = Some key ->
  key <> "" ->
  Z.of_nat (length (Redis.byKey (redis (snd (startRequest uuid iso now rd w)))
                      !!! key))
  <= maxRecordsPerKey (this w) + 100.
Proof.
  intros Hon Hup Hpos Hkey Hne.
  rewrite (startRequest_cases uuid iso now rd w Hon). cbn zeta.
  rewrite (store_up_next _ Hup), Hkey. cbn [snd].
  match goal with
  | |- context [enforceRecordLimit (Some key) ?s] =>
      destruct (enforceRecordLimit_bound key s Hne) as (Hbound & _)
  end.
  - intros n. apply Hup.
  - exact Hpos.
  - exact Hbound.
Qed.

Lemma startRequest_keeps_owner_within_buffer_witness :
  Z.of_nat (length (Redis.byKey
                      (redis (snd (startRequest "id-1" "2025-01-01T00:00:00.000Z"
                                     1000 (sample_request (JObj chat_body))
                                     (crowded_world 1101)))) !!! "key-1"))
  <= maxRecordsPerKey (this (crowded_world 1101)) + 100.
Proof.
  apply (startRequest_keeps_owner_within_buffer
           "id-1" "2025-01-01T00:00:00.000Z" 1000
           (sample_request (JObj chat_body)) (crowded_world 1101) "key-1").
  - reflexivity.
  - intros n. reflexivity.
  - reflexivity.
  - reflexivity.
  - discriminate.
Defined.

(** At 1101 records the start that adds one more trims the owner to 1000. *)
Example startRequest_trims_crowded_owner :
  length (Redis.byKey
            (redis (snd (startRequest "id-1" "2025-01-01T00:00:00.000Z" 1000
                           (sample_request (JObj chat_body))
                           (crowded_world 1101)))) !!! "key-1")
  = 1000%nat.
Proof. vm_compute. reflexivity. Qed.

(** X15. Enforcing the limit twice is enforcing it once: with the store
    answering and a positive limit, a second [enforceRecordLimit] for the
    same key only reads the count and removes nothing; and the first one
    leaves the lists of all other keys alone. *)
Theorem enforceRecordLimit_twice_is_once (key : string) (w : World) :
  key <> "" ->
  store_up (redis w) ->
  0 < maxRecordsPerKey (this w) ->
  let once := snd (enforceRecordLimit (Some key) w) in
  let twice := snd (enforceRecordLimit (Some key) once) in
  Redis.records (redis twice) = Redis.records (redis once)
  /\ Redis.byKey (redis twice) = Redis.byKey (redis once)
  /\ Redis.issued (redis twice) =
     (Redis.issued (redis once) ++ [Redis.GetRequestHistoryCount key])%list
  /\ (forall other, other <> key ->
        Redis.byKey (redis once) !!! other = Redis.byKey (redis w) !!! other).
Proof.
  intros Hkey Hup Hpos. cbn zeta.
  destruct (enforceRecordLimit_bound key w Hkey Hup Hpos)
    as (Hbound & _ & Hother & Hup' & Hthis). cbn zeta in *.
  rewrite (enforceRecordLimit_run key _ Hkey Hup'). cbn zeta. cbn [snd redis].
  rewrite Hthis.
  destruct (Z.gtb_spec
              (Z.of_nat (length (Redis.byKey
                                   (redis (snd (enforceRecordLimit (Some key) w)))
                                   !!! key)))
              (maxRecordsPerKey (this w) + 100)) as [Hgt|_]; [lia|].
  repeat split. exact Hother.
Qed.

Lemma enforceRecordLimit_twice_witness :
  Redis.byKey (redis (snd (enforceRecordLimit (Some "key-1")
                             (snd (enforceRecordLimit (Some "key-1")
                                     (crowded_world 1101))))))
  = Redis.byKey (redis (snd (enforceRecordLimit (Some "key-1")
                               (crowded_world 1101)))).
Proof.
  apply (enforceRecordLimit_twice_is_once "key-1" (crowded_world 1101)).
  - discriminate.
  - intros n. reflexivity.
  - reflexivity.
Defined.

(** ** The configuration over time *)

Lemma updateConfig_this iso n w :
  this (snd (updateConfig iso (Some n) w)) = valid_fields_applied n (this w).
Proof.
  rewrite updateConfig_run, saveConfigToRedis_run. cbn zeta. cbn [redis this].
  destruct (next_command_fails (redis w)); reflexivity.
Qed.

Lemma valid_fields_applied_positive n c :
  limits_positive c -> limits_positive (valid_fields_applied n c).
Proof.
  intros (Ha & Hb & Hc). destruct n as [e a b d].
  unfold limits_positive, valid_fields_applied.
  cbn [NewConfig.maxRecordsPerKey NewConfig.maxRequestBodySize
       NewConfig.maxResponseBodySize maxRecordsPerKey maxRequestBodySize
       maxResponseBodySize].
  repeat split;
    match goal with
    | |- 0 < match ?v with _ => _ end =>
        destruct v as [| | |z| | |]; try assumption;
        destruct (Z.ltb_spec 0 z); assumption
    end.
Qed.

Lemma valid_fields_applied_twice n c :
  valid_fields_applied n (valid_fields_applied n c) = valid_fields_applied n c.
Proof.
  destruct n as [e a b d], c as [e0 a0 b0 d0].
  unfold valid_fields_applied.
  cbn [NewConfig.enableHistoryLogging NewConfig.maxRecordsPerKey
       NewConfig.maxRequestBodySize NewConfig.maxResponseBodySize
       enableHistoryLogging maxRecordsPerKey maxRequestBodySize
       maxResponseBodySize].
  destruct e, a as [| | |za| | |], b as [| | |zb| | |], d as [| | |zd| | |];
    repeat match goal with |- context [0 <? ?z] => destruct (0 <? z) eqn:? end;
    reflexivity.
Qed.

(** X16. No update can make a limit invalid: if the three limits are
    above 0, they still are after any sequence of [updateConfig] calls,
    whatever the arguments (also [null]) and whether or not the writes to
    the store succeed. *)
Theorem updateConfig_keeps_limits_positive
    (calls : list (string * option NewConfig.t)) (w : World) :
  limits_positive (this w) ->
  limits_positive (this (run_updates calls w)).
Proof.
  revert w. induction calls as [|[iso n] calls IH]; intros w Hpos; [exact Hpos|].
  unfold run_updates. cbn [foldl fst snd]. apply IH.
  destruct n as [n|].
  - rewrite updateConfig_this. apply valid_fields_applied_positive, Hpos.
  - rewrite updateConfig_null. exact Hpos.
Qed.

Lemma updateConfig_keeps_limits_positive_witness :
  limits_positive
    (this (run_updates
             [("t1", Some sample_update); ("t2", None);
              ("t3", Some (body_limits 0 7))]
             (fresh_world always))).
Proof.
  apply (updateConfig_keeps_limits_positive
           [("t1", Some sample_update); ("t2", None);
            ("t3", Some (body_limits 0 7))]
           (fresh_world always)).
  repeat split.
Defined.

(** X17. Sending the same update again changes nothing in memory: the
    configuration after two [updateConfig] calls with the same argument
    is the configuration after the first. *)
Theorem updateConfig_twice_is_once
    (iso1 iso2 : string) (n : NewConfig.t) (w : World) :
  this (snd (updateConfig iso2 (Some n) (snd (updateConfig iso1 (Some n) w))))
  = this (snd (updateConfig iso1 (Some n) w)).
Proof.
  rewrite !updateConfig_this. apply valid_fields_applied_twice.
Qed.

(** X18. [initializeConfig] assigns all four tunables on every path: what
    it returns and the world it leaves depend on the store only, not on
    what the tunables were before (at construction they are not set). *)
Theorem initializeConfig_ignores_previous_values
    (parse : string -> option SavedConfig.t) (iso : string)
    (before other : Config) (s : Redis.Store) :
  initializeConfig parse iso {| this := before; redis := s |}
  = initializeConfig parse iso {| this := other; redis := s |}.
Proof.
  rewrite !initializeConfig_run, !loadConfigFromRedis_run. cbn zeta.
  cbn [fst this redis].
  set (o := if next_command_fails s then None else _).
  destruct o as [saved|]; [reflexivity|].
  rewrite !saveConfigToRedis_run. reflexivity.
Qed.

(** ** From start to a terminal state, on a sample *)

Lemma startRequest_then_get_pending_witness :
  exists r,
    fst (getRequestDetails "id-1"
           (snd (startRequest "id-1" "2025-01-01T00:00:00.000Z" 1000
                   (sample_request (JObj chat_body)) tight_world)))
      = Returned (Some r)
    /\ HistoryRecord.status r = pending
    /\ HistoryRecord.model r = JStr "claude-3"
    /\ HistoryRecord.headers r = <["Authorization" := JStr "[REDACTED]"]> ∅.
Proof.
  destruct (startRequest_then_get_pending "id-1" "2025-01-01T00:00:00.000Z" 1000
              (sample_request (JObj chat_body)) tight_world)
    as (r & Hget & _ & Hstatus & _ & Hheaders & Hmodel & _).
  - reflexivity.
  - intros n. reflexivity.
  - reflexivity.
  - intros key _.
    change (Redis.byKey (redis tight_world)) with (∅ : gmap string (list string)).
    rewrite lookup_total_empty. apply not_elem_of_nil.
  - exists r. split; [exact Hget|]. split; [exact Hstatus|].
    split; [exact Hmodel|]. rewrite Hheaders. vm_compute. reflexivity.
Defined.

Lemma startRequest_then_completeRequest_witness :
  exists r,
    fst (getRequestDetails "id-1"
           (snd (completeRequest 1600 (Some "id-1") (sample_response (JStr "ok"))
                   (snd (startRequest "id-1" "2025-01-01T00:00:00.000Z" 1000
                           (sample_request (JObj chat_body)) tight_world)))))
      = Returned (Some r)
    /\ HistoryRecord.status r = success
    /\ HistoryRecord.duration r = Some 600.
Proof.
  destruct (startRequest_then_completeRequest "id-1" "2025-01-01T00:00:00.000Z"
              1000 1600 (sample_request (JObj chat_body))
              (sample_response (JStr "ok")) tight_world)
    as (r & Hget & Hstatus & _ & _ & Hduration).
  - discriminate.
  - reflexivity.
  - intros n. reflexivity.
  - reflexivity.
  - intros key _.
    change (Redis.byKey (redis tight_world)) with (∅ : gmap string (list string)).
    rewrite lookup_total_empty. apply not_elem_of_nil.
  - exists r. split; [exact Hget|]. split; [exact Hstatus | exact Hduration].
Defined.

Lemma startRequest_then_failRequest_witness :
  exists r,
    fst (getRequestDetails "id-1"
           (snd (failRequest 1600 (Some "id-1") overloaded_error
                   (snd (startRequest "id-1" "2025-01-01T00:00:00.000Z" 1000
                           (sample_request (JObj chat_body)) tight_world)))))
      = Returned (Some r)
    /\ HistoryRecord.status r = error
    /\ HistoryRecord.duration r = Some 600.
Proof.
  destruct (startRequest_then_failRequest "id-1" "2025-01-01T00:00:00.000Z"
              1000 1600 (sample_request (JObj chat_body))
              overloaded_error tight_world)
    as (r & Hget & Hstatus & _ & _ & Hduration).
  - discriminate.
  - reflexivity.
  - intros n. reflexivity.
  - reflexivity.
  - intros key _.
    change (Redis.byKey (redis tight_world)) with (∅ : gmap string (list string)).
    rewrite lookup_total_empty. apply not_elem_of_nil.
  - exists r. split; [exact Hget|]. split; [exact Hstatus | exact Hduration].
Defined.

(** ** The size limit *)

(** X20. Limiting a request body twice is limiting it once: the body that
    [startRequest] would store for a body is stored as it is when it is
    itself passed as the body, whatever the body and the limit. *)
Theorem request_body_limit_twice_is_once (body : JsVal) (w : World) :
  exists limited,
    limitRequestBody body w = (Returned limited, w)
    /\ limitRequestBody limited w = (Returned limited, w).
Proof.
  rewrite limitRequestBody_run. eexists. split; [reflexivity|].
  rewrite limitRequestBody_run. f_equal. f_equal.
  destruct (truthy body && (json_size body >? maxRequestBodySize (this w)))
    eqn:Hcond.
  - cbn [truthy andb Js.get spread].
    match goal with
    | |- context [json_size (JObj ?ps) >? ?m] =>
        destruct (json_size (JObj ps) >? m)
    end; [|reflexivity].
    rewrite lookup_assign_eq. cbn [nullish]. f_equal.
    apply assign_prop_present. rewrite lookup_assign_eq. f_equal.
    destruct (truthy (Js.get body "messages")) eqn:Hm; [reflexivity|].
    rewrite Hm. reflexivity.
  - rewrite Hcond. reflexivity.
Qed.

